(** * A shallow embedding of the PDF question-answering application

    The repository is glue code: [vectors.py] holds
    [EmbeddingsManager.create_embeddings], which hands a file path to a
    document loader, the loaded documents to a text splitter and the chunks
    to a vector-database client; [app.py] is a Streamlit script that is run
    from top to bottom on every user interaction and keeps the uploaded
    file's path, the chatbot and the chat transcript in [st.session_state].

    The embedding follows the Python text statement by statement in a state
    and exception monad.  The external libraries are collaborators whose
    behaviour is a parameter; every call to one of them is recorded in a
    trace, so that the order of the delegation steps and the absence of a
    call can be stated.

    Outside the model: [time.sleep], which only waits; the widgets of
    Streamlit, which are taken to draw and return (what they return to the
    script is an input of a run); and the contents of the loaded documents,
    the embeddings and the vector database, which belong to the libraries. *)

From Stdlib Require Import Ascii.
From stdpp Require Import base strings pretty list gmap.

Local Open Scope string_scope.

(** ** Python exceptions

    A class of the exception hierarchy.  The built-in classes the two source
    files name or can meet are constructors; [LibraryClass] is a class a
    library derives from another one.  [except Exception] catches the
    instances of [Exception] only: [KeyboardInterrupt], [SystemExit] and
    [GeneratorExit] derive from [BaseException] directly. *)

Inductive pyclass : Type :=
  | BaseException
  | Exception
  | KeyboardInterrupt
  | SystemExit
  | GeneratorExit
  | OSError
  | FileNotFoundError
  | ConnectionError
  | ValueError
  | KeyError
  | ImportError
  | RuntimeError
  | AttributeError
  | LibraryClass (name : string) (base : pyclass).

Global Instance pyclass_eq_dec : EqDecision pyclass.
Proof. solve_decision. Defined.

(** The method resolution order: the class itself, then its ancestors up to
    [BaseException]. *)
Fixpoint mro (c : pyclass) : list pyclass :=
  match c with
  | BaseException => [BaseException]
  | Exception => [Exception; BaseException]
  | KeyboardInterrupt => [KeyboardInterrupt; BaseException]
  | SystemExit => [SystemExit; BaseException]
  | GeneratorExit => [GeneratorExit; BaseException]
  | OSError => [OSError; Exception; BaseException]
  | FileNotFoundError => [FileNotFoundError; OSError; Exception; BaseException]
  | ConnectionError => [ConnectionError; OSError; Exception; BaseException]
  | ValueError => [ValueError; Exception; BaseException]
  | KeyError => [KeyError; Exception; BaseException]
  | ImportError => [ImportError; Exception; BaseException]
  | RuntimeError => [RuntimeError; Exception; BaseException]
  | AttributeError => [AttributeError; Exception; BaseException]
  | LibraryClass _ base => c :: mro base
  end.

Definition issubclass (c d : pyclass) : bool := bool_decide (d ∈ mro c).

(** An exception object: its class and the text [str(e)] gives, which is what
    an f-string interpolates and what [st.error] shows. *)
Record exn : Type := mk_exn { exc_class : pyclass; exc_str : string }.

Definition isinstance (e : exn) (c : pyclass) : bool :=
  issubclass (exc_class e) c.

(** ** Outcomes and the monad *)

Inductive outcome (A : Type) : Type :=
  | Return (a : A)
  | Raise (e : exn).
Arguments Return {A} a.
Arguments Raise {A} e.

(** The values the external libraries hand back are opaque to this code: a
    loaded document, a chunk, the embedding model, the state of the vector
    database and the chatbot. *)
Class Types : Type := {
  Doc : Type;
  Chunk : Type;
  Emb : Type;
  DB : Type;
  Bot : Type
}.

Section Model.

Context `{Types}.

(** *** Calls to the collaborators *)

Inductive Event : Type :=
  | EvPathExists (path : string)
  | EvFileWrite (path : string) (data : list Byte.byte)
  | EvLoaderInit (path : string)
  | EvLoaderLoad (path : string)
  | EvSplitDocuments (chunk_size chunk_overlap : nat) (docs : list Doc)
  | EvBgeInit (model_name device : string) (encode_kwargs : gmap string bool)
  | EvQdrantFromDocuments (splits : list Chunk) (embedding : Emb)
      (url : string) (prefer_grpc : bool) (collection_name : string)
  | EvChatBotInit
  | EvGetResponse (query : string).

Definition is_vector_db_call (ev : Event) : bool :=
  match ev with EvQdrantFromDocuments _ _ _ _ _ => true | _ => false end.

(** The arguments [app.py] passes to [ChatBotManager]; the temperature 0.7
    is kept as the fraction 7/10. *)
Record ChatBotArgs : Type := {
  cb_model_name : string;
  cb_device : string;
  cb_encode_kwargs : gmap string bool;
  cb_llm_model : string;
  cb_llm_temperature : nat * nat;
  cb_qdrant_url : string;
  cb_collection_name : string
}.

(** What the libraries answer.  [chatbot.py] is not part of the two source
    files, so [ChatBotManager] and its [get_response] are collaborators
    too.  The last field is the text of the [KeyError] that Streamlit raises
    for a key its session state does not hold. *)
Record Externals : Type := {
  loader_init_error : string → option exn;
  loader_load_result : string → option (list Byte.byte) → outcome (list Doc);
  split_documents_result : nat → nat → list Doc → outcome (list Chunk);
  bge_init_result : string → string → gmap string bool → outcome Emb;
  from_documents_result :
    list Chunk → Emb → string → bool → string → DB → outcome unit * DB;
  chatbot_init_result : ChatBotArgs → outcome Bot;
  get_response_result : Bot → DB → string → outcome string;
  b64encode : list Byte.byte → string;
  session_key_error_text : string → string
}.

(** *** The state the two files read and write *)

(** [st.session_state]: a key is absent ([None]) until the script sets
    it. *)
Record Session : Type := {
  ss_temp_pdf_path : option (option string);
  ss_chatbot_manager : option (option Bot);
  ss_messages : option (list (gmap string string))
}.

Inductive Widget : Type :=
  | WPageConfig (page_title layout sidebar : string)
  | WImage (src : string)
  | WTitle (body : string)
  | WHeader (body : string)
  | WMarkdown (body : string)
  | WHtml (body : string)
  | WSuccess (body : string)
  | WWarning (body : string)
  | WError (body : string)
  | WInfo (body : string)
  | WSpinner (body : string)
  | WChatMessage (name body : string).

Record State : Type := {
  files : gmap string (list Byte.byte);
  db : DB;
  trace : list Event;
  session : Session;
  display : list Widget
}.

Definition M (A : Type) : Type := State → outcome A * State.

#[global] Instance M_ret : MRet M := λ A a s, (Return a, s).

#[global] Instance M_bind : MBind M := λ A B k m s,
  match m s with
  | (Return a, s') => k a s'
  | (Raise e, s') => (Raise e, s')
  end.

Definition raise {A} (e : exn) : M A := λ s, (Raise e, s).

(** [except C as e: h e] clauses are tried in order; an exception no clause
    matches goes on. *)
Fixpoint dispatch {A} (clauses : list (pyclass * (exn → M A))) (e : exn)
    : M A :=
  match clauses with
  | [] => raise e
  | (c, h) :: rest => if isinstance e c then h e else dispatch rest e
  end.

Definition try_except {A} (body : M A)
    (clauses : list (pyclass * (exn → M A))) : M A := λ s,
  match body s with
  | (Return a, s') => (Return a, s')
  | (Raise e, s') => dispatch clauses e s'
  end.

Definition log (ev : Event) : M unit := λ s,
  (Return tt,
   {| files := files s; db := db s; trace := trace s ++ [ev];
      session := session s; display := display s |}).

Definition of_outcome {A} (o : outcome A) : M A := λ s, (o, s).

Variable ext : Externals.

(** *** vectors.py *)

Definition os_path_exists (path : string) : M bool := λ s,
  (log (EvPathExists path) ;; mret (bool_decide (is_Some (files s !! path)))) s.

Record Loader : Type := { file_path : string }.

Definition UnstructuredPDFLoader (path : string) : M Loader :=
  log (EvLoaderInit path) ;;
  match loader_init_error ext path with
  | Some e => raise e
  | None => mret {| file_path := path |}
  end.

Definition loader_load (loader : Loader) : M (list Doc) := λ s,
  (log (EvLoaderLoad (file_path loader)) ;;
   of_outcome
     (loader_load_result ext (file_path loader)
        (files s !! file_path loader))) s.

Record TextSplitter : Type := { chunk_size : nat; chunk_overlap : nat }.

Definition RecursiveCharacterTextSplitter (size overlap : nat)
    : TextSplitter :=
  {| chunk_size := size; chunk_overlap := overlap |}.

Definition split_documents (sp : TextSplitter) (docs : list Doc)
    : M (list Chunk) :=
  log (EvSplitDocuments (chunk_size sp) (chunk_overlap sp) docs) ;;
  of_outcome
    (split_documents_result ext (chunk_size sp) (chunk_overlap sp) docs).

Definition Qdrant_from_documents (splits : list Chunk) (embedding : Emb)
    (url : string) (prefer_grpc : bool) (collection_name : string)
    : M unit := λ s,
  let r := from_documents_result ext splits embedding url prefer_grpc
             collection_name (db s) in
  (r.1,
   {| files := files s; db := r.2;
      trace := trace s ++
        [EvQdrantFromDocuments splits embedding url prefer_grpc
           collection_name];
      session := session s; display := display s |}).

Definition HuggingFaceBgeEmbeddings (model_name device : string)
    (encode_kwargs : gmap string bool) : M Emb :=
  log (EvBgeInit model_name device encode_kwargs) ;;
  of_outcome (bge_init_result ext model_name device encode_kwargs).

Record EmbeddingsManager : Type := {
  em_model_name : string;
  em_device : string;
  em_encode_kwargs : gmap string bool;
  em_qdrant_url : string;
  em_collection_name : string;
  em_embeddings : Emb
}.

(** [EmbeddingsManager.__init__] *)
Definition EmbeddingsManager_init (model_name device : string)
    (encode_kwargs : gmap string bool) (qdrant_url collection_name : string)
    : M EmbeddingsManager :=
  embeddings ← HuggingFaceBgeEmbeddings model_name device encode_kwargs;
  mret {| em_model_name := model_name; em_device := device;
          em_encode_kwargs := encode_kwargs; em_qdrant_url := qdrant_url;
          em_collection_name := collection_name;
          em_embeddings := embeddings |}.

Definition is_empty {A} (l : list A) : bool :=
  match l with [] => true | _ => false end.

Definition success_message : string :=
  "Vector DB Successfully Created and Stored in Qdrant!".

Definition missing_file_error (pdf_path : string) : exn :=
  mk_exn FileNotFoundError ("The file " +:+ pdf_path +:+ " does not exits.").

Definition no_documents_error : exn :=
  mk_exn ValueError "No documents were loaded".

Definition no_chunks_error : exn :=
  mk_exn ValueError "No chunks were created from the documents".

Definition qdrant_error (e : exn) : exn :=
  mk_exn ConnectionError ("Failed to connect to Qdrant: " +:+ exc_str e).

(** [EmbeddingsManager.create_embeddings] *)
Definition create_embeddings (self : EmbeddingsManager) (pdf_path : string)
    : M string :=
  found ← os_path_exists pdf_path;
  if negb found then raise (missing_file_error pdf_path)
  else
    loader ← UnstructuredPDFLoader pdf_path;
    docs ← loader_load loader;
    if is_empty docs then raise no_documents_error
    else
      let text_splitter := RecursiveCharacterTextSplitter 1000 250 in
      splits ← split_documents text_splitter docs;
      if is_empty splits then raise no_chunks_error
      else
        try_except
          (Qdrant_from_documents splits (em_embeddings self)
             (em_qdrant_url self) false (em_collection_name self))
          [(Exception, λ e, raise (qdrant_error e))] ;;
        mret success_message.

(** *** app.py *)

Definition show (w : Widget) : M unit := λ s,
  (Return tt,
   {| files := files s; db := db s; trace := trace s;
      session := session s; display := display s ++ [w] |}).

Definition put_session (ss : Session) : M unit := λ s,
  (Return tt,
   {| files := files s; db := db s; trace := trace s;
      session := ss; display := display s |}).

Definition get_session : M Session := λ s, (Return (session s), s).

(** [msg[key]] on a dict without the key raises [KeyError(key)].  Its text
    is the [repr] of the key: the key between single quotes, for a key
    without a quote or a backslash, as the two keys the script reads are. *)
Definition key_error (key : string) : exn :=
  mk_exn KeyError ("'" +:+ key +:+ "'").

(** Reading a key that [st.session_state] does not hold raises a [KeyError]
    with the sentence of Streamlit. *)
Definition session_key_error (key : string) : exn :=
  mk_exn KeyError (session_key_error_text ext key).

Definition session_get {A} (field : Session → option A) (key : string)
    : M A :=
  ss ← get_session;
  match field ss with
  | Some v => mret v
  | None => raise (session_key_error key)
  end.

Definition set_temp_pdf_path (v : option string) : M unit :=
  ss ← get_session;
  put_session {| ss_temp_pdf_path := Some v;
                 ss_chatbot_manager := ss_chatbot_manager ss;
                 ss_messages := ss_messages ss |}.

Definition set_chatbot_manager (v : option Bot) : M unit :=
  ss ← get_session;
  put_session {| ss_temp_pdf_path := ss_temp_pdf_path ss;
                 ss_chatbot_manager := Some v;
                 ss_messages := ss_messages ss |}.

Definition set_messages (v : list (gmap string string)) : M unit :=
  ss ← get_session;
  put_session {| ss_temp_pdf_path := ss_temp_pdf_path ss;
                 ss_chatbot_manager := ss_chatbot_manager ss;
                 ss_messages := Some v |}.

(** [st.session_state['messages'].append(msg)] *)
Definition messages_append (msg : gmap string string) : M unit :=
  msgs ← session_get ss_messages "messages";
  set_messages (msgs ++ [msg]).

(** [msg[key]] on a dict *)
Definition dict_get (msg : gmap string string) (key : string) : M string :=
  match msg !! key with
  | Some v => mret v
  | None => raise (key_error key)
  end.

Definition message (role content : string) : gmap string string :=
  {[ "role" := role; "content" := content ]}.

Record UploadedFile : Type := {
  uf_name : string;
  uf_size : nat;
  uf_buffer : list Byte.byte
}.

Definition dquote : string := String "034"%char "".

(** [displayPDF] *)
Definition displayPDF (file : UploadedFile) : M unit :=
  let base64_pdf := b64encode ext (uf_buffer file) in
  let pdf_display :=
    "<iframe src=" +:+ dquote +:+ "data:application/pdf;base64,"
    +:+ base64_pdf +:+ dquote +:+ " width=" +:+ dquote +:+ "100%" +:+ dquote
    +:+ " height=" +:+ dquote +:+ "600" +:+ dquote +:+ " type=" +:+ dquote
    +:+ "application/pdf" +:+ dquote +:+ "></iframe>" in
  show (WHtml pdf_display).

(** Lines 22 to 29: a key is set only when it is absent. *)
Definition init_session : M unit :=
  ss ← get_session;
  (if ss_temp_pdf_path ss is None then set_temp_pdf_path None else mret tt) ;;
  ss ← get_session;
  (if ss_chatbot_manager ss is None then set_chatbot_manager None
   else mret tt) ;;
  ss ← get_session;
  (if ss_messages ss is None then set_messages [] else mret tt).

Definition nl : string := String "010"%char "".

Definition home_text : string :=
  nl +:+ "    Welcome to **Document Buddy App**! 🚀" +:+ nl +:+ nl
  +:+ "    **Built using Open Source Stack (Llama 3.2, BGE Embeddings, and Qdrant running locally within a Docker Container.)**"
  +:+ nl +:+ nl
  +:+ "    - **Upload Documents**: Easily upload your PDF documents." +:+ nl
  +:+ "    - **Summarize**: Get concise summaries of your documents." +:+ nl
  +:+ "    - **Chat**: Interact with your documents through the intelligent chatbot."
  +:+ nl +:+ nl
  +:+ "    Enhance your document managment experience!" +:+ nl +:+ "    ".

Definition write_file (path : string) (data : list Byte.byte) : M unit :=
  λ s,
  (Return tt,
   {| files := <[path := data]> (files s); db := db s;
      trace := trace s ++ [EvFileWrite path data];
      session := session s; display := display s |}).

(** Column 1: the uploader and the preview. *)
Definition upload_column (uploaded_file : option UploadedFile) : M unit :=
  show (WHeader "📂 Upload Document") ;;
  match uploaded_file with
  | Some file =>
      show (WSuccess "📄 File Uploaded Successfully!") ;;
      show (WMarkdown ("File Name: " +:+ uf_name file)) ;;
      show (WMarkdown
              ("File Size: " +:+ pretty (uf_size file) +:+ " bytes")) ;;
      show (WMarkdown "### 📖 PDF Preview") ;;
      displayPDF file ;;
      let temp_pdf_path := "temp.pdf" in
      write_file temp_pdf_path (uf_buffer file) ;;
      set_temp_pdf_path (Some temp_pdf_path)
  | None => mret tt
  end.

Definition ChatBotManager (args : ChatBotArgs) : M Bot :=
  log EvChatBotInit ;; of_outcome (chatbot_init_result ext args).

Definition encode_kwargs : gmap string bool :=
  {[ "normalize_embeddings" := true ]}.

Definition chatbot_args : ChatBotArgs :=
  {| cb_model_name := "BAAI/bge-small-en"; cb_device := "cpu";
     cb_encode_kwargs := encode_kwargs; cb_llm_model := "llama3.2:3b";
     cb_llm_temperature := (7, 10);
     cb_qdrant_url := "http://localhost:6333";
     cb_collection_name := "vector_db" |}.

(** The body of the [try] of lines 101 to 127. *)
Definition embeddings_try_body (pdf_path : string) : M unit :=
  embeddings_manager ←
    EmbeddingsManager_init "BAAI/bge-small-en" "cpu" encode_kwargs
      "http://localhost:6333" "vector_db";
  show (WSpinner "Generating Embeddings...") ;;
  result ← create_embeddings embeddings_manager pdf_path;
  show (WSuccess result) ;;
  manager ← session_get ss_chatbot_manager "chatbot_manager";
  if manager is None then
    bot ← ChatBotManager chatbot_args;
    set_chatbot_manager (Some bot)
  else mret tt.

(** The four [except] clauses of lines 128 to 135, in their order. *)
Definition embeddings_handlers : list (pyclass * (exn → M unit)) :=
  [ (FileNotFoundError, λ fnf_error, show (WError (exc_str fnf_error)));
    (ValueError, λ val_error, show (WError (exc_str val_error)));
    (ConnectionError, λ conn_error, show (WError (exc_str conn_error)));
    (Exception, λ e,
       show (WError ("An unexpected error occurred: " +:+ exc_str e))) ].

(** Column 2: the checkbox that starts the indexing. *)
Definition embeddings_column (create_embeddings_checked : bool) : M unit :=
  show (WHeader "🧠 Embeddings") ;;
  if create_embeddings_checked then
    temp_pdf_path ← session_get ss_temp_pdf_path "temp_pdf_path";
    match temp_pdf_path with
    | None => show (WWarning "⚠️ Please upload a PDF first.")
    | Some pdf_path =>
        try_except (embeddings_try_body pdf_path) embeddings_handlers
    end
  else mret tt.

(** The loop of lines 148 to 152. *)
Fixpoint show_messages (msgs : list (gmap string string)) : M unit :=
  match msgs with
  | [] => mret tt
  | msg :: rest =>
      role ← dict_get msg "role";
      (if bool_decide (role = "user") then
         content ← dict_get msg "content";
         show (WChatMessage "user" content)
       else
         role ← dict_get msg "role";
         if bool_decide (role = "assistant") then
           content ← dict_get msg "content";
           show (WChatMessage "assistant" content)
         else mret tt) ;;
      show_messages rest
  end.

Definition bot_get_response (bot : Bot) (text : string) : M string := λ s,
  (log (EvGetResponse text) ;;
   of_outcome (get_response_result ext bot (db s) text)) s.

(** [st.session_state['chatbot_manager'].get_response(user_input)]: the
    attribute lookup fails on [None]. *)
Definition get_response (text : string) : M string :=
  manager ← session_get ss_chatbot_manager "chatbot_manager";
  match manager with
  | None =>
      raise (mk_exn AttributeError
               "'NoneType' object has no attribute 'get_response'")
  | Some bot => bot_get_response bot text
  end.

Definition error_answer (e : exn) : string :=
  "⚠️ An error occurred while processing your request: " +:+ exc_str e.

(** The chat input handler, lines 157 to 172.  An empty string is falsy,
    like [None]. *)
Definition chat_handler (user_input : option string) : M unit :=
  match user_input with
  | Some text =>
      if bool_decide (text = "") then mret tt
      else
        messages_append (message "user" text) ;;
        show (WChatMessage "user" text) ;;
        show (WSpinner "Responding...") ;;
        answer ←
          try_except (get_response text)
            [(Exception, λ e, mret (error_answer e))];
        messages_append (message "assistant" answer) ;;
        show (WChatMessage "assistant" answer)
  | None => mret tt
  end.

(** Column 3: the transcript and the chat input. *)
Definition chat_column (user_input : option string) : M unit :=
  show (WHeader "💬 Chat with Document") ;;
  manager ← session_get ss_chatbot_manager "chatbot_manager";
  if manager is None then
    show (WInfo
      "🤖 Please upload a PDF and create embeddings to start chatting!")
  else
    msgs ← session_get ss_messages "messages";
    show_messages msgs ;;
    chat_handler user_input.

(** What the widgets of one run return. *)
Record Inputs : Type := {
  in_choice : string;
  in_uploaded_file : option UploadedFile;
  in_create_embeddings : bool;
  in_user_input : option string
}.

(** One run of the script, top to bottom. *)
Definition script_run (inp : Inputs) : M unit :=
  init_session ;;
  show (WPageConfig "Chat with PDF app" "wide" "expanded") ;;
  show (WImage "chatbot.png") ;;
  show (WMarkdown "### Your personal Document Assistant") ;;
  show (WMarkdown "---") ;;
  let choice := in_choice inp in
  if bool_decide (choice = "🏠 Home") then
    show (WTitle "Chat with PDF App") ;;
    show (WMarkdown home_text)
  else if bool_decide (choice = "🤖 Chatbot") then
    show (WTitle "🤖 Chatbot Interface (Llama 3.2 RAG 🦙)") ;;
    show (WMarkdown "---") ;;
    upload_column (in_uploaded_file inp) ;;
    embeddings_column (in_create_embeddings inp) ;;
    chat_column (in_user_input inp)
  else mret tt.

End Model.

(** ** The transcript and the sessions a user can reach *)

(** A message is a dict with a role, user or assistant, and a content. *)
Definition valid_message (msg : gmap string string) : Prop :=
  (msg !! "role" = Some "user" ∨ msg !! "role" = Some "assistant")
  ∧ is_Some (msg !! "content").

Definition transcript `{Types} (s : State) : list (gmap string string) :=
  default [] (ss_messages (session s)).

Definition transcript_ok `{Types} (s : State) : Prop :=
  Forall valid_message (transcript s).

(** A new browser session holds no key. *)
Definition new_session `{Types} : Session :=
  {| ss_temp_pdf_path := None; ss_chatbot_manager := None;
     ss_messages := None |}.

Definition with_world `{Types} (fs : gmap string (list Byte.byte)) (d : DB)
    (s : State) : State :=
  {| files := fs; db := d; trace := trace s; session := session s;
     display := display s |}.

(** The states of a session: it starts new, every interaction runs the script
    once against whatever the collaborators answer then, and between two runs
    the files and the vector database may change. *)
Inductive reachable `{Types} : State → Prop :=
  | reachable_new s :
      session s = new_session → reachable s
  | reachable_run ext inp s :
      reachable s → reachable (script_run ext inp s).2
  | reachable_world fs d s :
      reachable s → reachable (with_world fs d s).

(** What the chat handler binds to [answer]: the chatbot's reply, or the
    error text when it raised an [Exception]. *)
Definition answer_text (r : outcome string) : string :=
  match r with
  | Return a => a
  | Raise e => error_answer e
  end.

(** The text the embeddings column shows for an exception it caught. *)
Definition shown_error (e : exn) : string :=
  if isinstance e FileNotFoundError || isinstance e ValueError
     || isinstance e ConnectionError
  then exc_str e
  else "An unexpected error occurred: " +:+ exc_str e.

Definition with_display `{Types} (ws : list Widget) (s : State) : State :=
  {| files := files s; db := db s; trace := trace s; session := session s;
     display := display s ++ ws |}.

(** The state after the collaborators were called as [evs] lists and the
    vector database was left as [d]. *)
Definition after_calls `{Types} (evs : list Event) (d : DB) (s : State)
    : State :=
  {| files := files s; db := d; trace := trace s ++ evs;
     session := session s; display := display s |}.

(** The calls of an indexing run that gets as far as the vector database. *)
Definition indexing_calls `{Types} (self : EmbeddingsManager)
    (pdf_path : string) (docs : list Doc) (splits : list Chunk)
    : list Event :=
  [ EvPathExists pdf_path; EvLoaderInit pdf_path; EvLoaderLoad pdf_path;
    EvSplitDocuments 1000 250 docs;
    EvQdrantFromDocuments splits (em_embeddings self) (em_qdrant_url self)
      false (em_collection_name self) ].

(** A computation keeps a property of the state, also when it raises. *)
Definition preserves `{Types} {A} (P : State → Prop) (m : M A) : Prop :=
  ∀ s, P s → P (m s).2.

(** The manager [app.py] builds, once the embedding model is there. *)
Definition app_manager `{Types} (embeddings : Emb) : EmbeddingsManager :=
  {| em_model_name := "BAAI/bge-small-en"; em_device := "cpu";
     em_encode_kwargs := encode_kwargs;
     em_qdrant_url := "http://localhost:6333";
     em_collection_name := "vector_db"; em_embeddings := embeddings |}.

(** The state in which the transcript is [msgs], the widgets [ws] were
    added to the page and the calls [evs] were made. *)
Definition chat_state `{Types} (msgs : list (gmap string string))
    (ws : list Widget) (evs : list Event) (s : State) : State :=
  {| files := files s; db := db s; trace := trace s ++ evs;
     session :=
       {| ss_temp_pdf_path := ss_temp_pdf_path (session s);
          ss_chatbot_manager := ss_chatbot_manager (session s);
          ss_messages := Some msgs |};
     display := display s ++ ws |}.

(** A computation leaves [st.session_state] alone. *)
Definition keeps_session `{Types} {A} (m : M A) : Prop :=
  ∀ s, session (m s).2 = session s.

(** ** What a run may do to the session *)

(** The three keys of [st.session_state] are set. *)
Definition initialised `{Types} (s : State) : Prop :=
  is_Some (ss_temp_pdf_path (session s))
  ∧ is_Some (ss_chatbot_manager (session s))
  ∧ is_Some (ss_messages (session s)).

(** What one run can add to the transcript [old] when the chat input
    returned [user_input]: nothing, the question, or the question and its
    answer. *)
Definition exchange (user_input : option string)
    (old new : list (gmap string string)) : Prop :=
  new = old
  ∨ ∃ text, user_input = Some text ∧ text ≠ ""
      ∧ (new = (old ++ [message "user" text])%list
         ∨ ∃ answer,
             new = (old ++ [message "user" text;
                            message "assistant" answer])%list).

(** A transcript made of questions, each followed by at most one answer. *)
Inductive dialogue : list (gmap string string) → Prop :=
  | dialogue_nil : dialogue []
  | dialogue_question text rest :
      dialogue rest → dialogue (message "user" text :: rest)
  | dialogue_answered text answer rest :
      dialogue rest →
      dialogue (message "user" text :: message "assistant" answer :: rest).

(** From a state in [Pre], the computation ends, with a value or an
    exception, in a state that [Post] relates to the outcome. *)
Definition hoare `{Types} {A} (Pre : State → Prop) (m : M A)
    (Post : outcome A → State → Prop) : Prop :=
  ∀ s, Pre s → Post (m s).1 (m s).2.

(** The outcome is a value, or an exception outside [Exception]. *)
Definition no_error_escapes {A} (o : outcome A) : Prop :=
  match o with
  | Return _ => True
  | Raise e => isinstance e Exception = false
  end.

(** The ways an indexing run of [create_embeddings] can go, each with its
    outcome, the calls it has made and the state it leaves the vector
    database in. *)
Inductive indexing_result `{Types} (ext : Externals)
    (self : EmbeddingsManager) (pdf_path : string) (s : State)
    : outcome string → list Event → DB → Prop :=
  | indexing_missing :
      files s !! pdf_path = None →
      indexing_result ext self pdf_path s
        (Raise (missing_file_error pdf_path)) [EvPathExists pdf_path] (db s)
  | indexing_loader_refused data e :
      files s !! pdf_path = Some data →
      loader_init_error ext pdf_path = Some e →
      indexing_result ext self pdf_path s (Raise e)
        [EvPathExists pdf_path; EvLoaderInit pdf_path] (db s)
  | indexing_load_raised data e :
      files s !! pdf_path = Some data →
      loader_init_error ext pdf_path = None →
      loader_load_result ext pdf_path (Some data) = Raise e →
      indexing_result ext self pdf_path s (Raise e)
        [EvPathExists pdf_path; EvLoaderInit pdf_path; EvLoaderLoad pdf_path]
        (db s)
  | indexing_no_documents data :
      files s !! pdf_path = Some data →
      loader_init_error ext pdf_path = None →
      loader_load_result ext pdf_path (Some data) = Return [] →
      indexing_result ext self pdf_path s (Raise no_documents_error)
        [EvPathExists pdf_path; EvLoaderInit pdf_path; EvLoaderLoad pdf_path]
        (db s)
  | indexing_split_raised data docs e :
      files s !! pdf_path = Some data →
      loader_init_error ext pdf_path = None →
      loader_load_result ext pdf_path (Some data) = Return docs →
      docs ≠ [] →
      split_documents_result ext 1000 250 docs = Raise e →
      indexing_result ext self pdf_path s (Raise e)
        [EvPathExists pdf_path; EvLoaderInit pdf_path; EvLoaderLoad pdf_path;
         EvSplitDocuments 1000 250 docs] (db s)
  | indexing_no_chunks data docs :
      files s !! pdf_path = Some data →
      loader_init_error ext pdf_path = None →
      loader_load_result ext pdf_path (Some data) = Return docs →
      docs ≠ [] →
      split_documents_result ext 1000 250 docs = Return [] →
      indexing_result ext self pdf_path s (Raise no_chunks_error)
        [EvPathExists pdf_path; EvLoaderInit pdf_path; EvLoaderLoad pdf_path;
         EvSplitDocuments 1000 250 docs] (db s)
  | indexing_stored data docs splits d' :
      files s !! pdf_path = Some data →
      loader_init_error ext pdf_path = None →
      loader_load_result ext pdf_path (Some data) = Return docs →
      docs ≠ [] →
      split_documents_result ext 1000 250 docs = Return splits →
      splits ≠ [] →
      from_documents_result ext splits (em_embeddings self)
        (em_qdrant_url self) false (em_collection_name self) (db s)
      = (Return (), d') →
      indexing_result ext self pdf_path s (Return success_message)
        (indexing_calls self pdf_path docs splits) d'
  | indexing_store_raised data docs splits e d' :
      files s !! pdf_path = Some data →
      loader_init_error ext pdf_path = None →
      loader_load_result ext pdf_path (Some data) = Return docs →
      docs ≠ [] →
      split_documents_result ext 1000 250 docs = Return splits →
      splits ≠ [] →
      from_documents_result ext splits (em_embeddings self)
        (em_qdrant_url self) false (em_collection_name self) (db s)
      = (Raise e, d') →
      indexing_result ext self pdf_path s
        (Raise (if isinstance e Exception then qdrant_error e else e))
        (indexing_calls self pdf_path docs splits) d'.

(** The keys are set and the transcript is [t]. *)
Definition settled `{Types} (t : list (gmap string string)) (s : State)
    : Prop :=
  initialised s ∧ transcript s = t.

(** A step of the script that leaves the transcript [t] alone and, when [t]
    is valid, lets no error out. *)
Definition stays `{Types} {A} (t : list (gmap string string))
    (o : outcome A) (s : State) : Prop :=
  settled t s ∧ (Forall valid_message t → no_error_escapes o).

(** What holds at the end of a run that started with the transcript [t] and
    in which the chat input returned [user_input]. *)
Definition run_post `{Types} {A} (user_input : option string)
    (t : list (gmap string string)) (o : outcome A) (s : State) : Prop :=
  initialised s ∧ exchange user_input t (transcript s)
  ∧ (Forall valid_message t → no_error_escapes o).

(** ** Concrete collaborators, for running the model *)

Definition demo_types : Types :=
  {| Doc := string; Chunk := string; Emb := string; DB := list string;
     Bot := unit |}.

(** A loader that finds one page in a non-empty file, a splitter that keeps
    each document as one chunk, a database that stores the chunks; the
    vector-database step and the chatbot answer as given. *)
Definition demo_ext (load : option (outcome (list string)))
    (store : outcome unit) (reply : outcome string)
    : @Externals demo_types :=
  @Build_Externals demo_types
    (* loader_init_error *) (λ _, None)
    (* loader_load_result *)
    (λ _ data,
       match load with
       | Some r => r
       | None =>
           match data with
           | Some (_ :: _) => Return ["page one"]
           | _ => Return []
           end
       end)
    (* split_documents_result *) (λ _ _ docs, Return docs)
    (* bge_init_result *) (λ model_name _ _, Return model_name)
    (* from_documents_result *)
    (λ splits _ _ _ _ d,
       match store with
       | Return _ => (store, @app string d splits)
       | Raise _ => (store, d)
       end)
    (* chatbot_init_result *) (λ _, Return ())
    (* get_response_result *) (λ _ _ _, reply)
    (* b64encode *) (λ _, "")
    (* session_key_error_text *)
    (λ key, "st.session_state has no key " +:+ key).

Definition demo_manager : @EmbeddingsManager demo_types :=
  @Build_EmbeddingsManager demo_types "BAAI/bge-small-en" "cpu" encode_kwargs
    "http://localhost:6333" "vector_db" "BAAI/bge-small-en".

Definition demo_state (fs : gmap string (list Byte.byte))
    (ss : @Session demo_types) : @State demo_types :=
  @Build_State demo_types fs [] [] ss [].

Definition one_page_pdf : gmap string (list Byte.byte) :=
  {[ "temp.pdf" := [Byte.x25; Byte.x50; Byte.x44; Byte.x46] ]}.

Definition empty_pdf : gmap string (list Byte.byte) :=
  {[ "temp.pdf" := [] ]}.

(** A session in which a file was uploaded and the chatbot exists. *)
Definition chatting (msgs : list (gmap string string))
    : @Session demo_types :=
  @Build_Session demo_types (Some (Some "temp.pdf")) (Some (Some ()))
    (Some msgs).

Definition uploaded : @Session demo_types :=
  @Build_Session demo_types (Some (Some "temp.pdf")) (Some None) (Some []).

Definition keyboard_interrupt : exn := mk_exn KeyboardInterrupt "".

Definition timeout_error : exn :=
  mk_exn (LibraryClass "ResponseHandlingException" Exception) "timed out".

Definition ok_reply : outcome string := Return "It is about cats.".

Definition runtime_error : exn := mk_exn RuntimeError "model not loaded".

Definition healthy : @Externals demo_types :=
  demo_ext None (Return ()) ok_reply.

Definition store_down : @Externals demo_types :=
  demo_ext None (Raise timeout_error) ok_reply.

Definition store_interrupted : @Externals demo_types :=
  demo_ext None (Raise keyboard_interrupt) ok_reply.

Definition load_interrupted : @Externals demo_types :=
  demo_ext (Some (Raise keyboard_interrupt)) (Return ()) ok_reply.

Definition bot_failing : @Externals demo_types :=
  demo_ext None (Return ()) (Raise runtime_error).

Definition bot_interrupted : @Externals demo_types :=
  demo_ext None (Return ()) (Raise keyboard_interrupt).

Definition load_failing : @Externals demo_types :=
  demo_ext (Some (Raise runtime_error)) (Return ()) ok_reply.

(** The first visit: a file is uploaded, the checkbox is ticked and a
    question is typed, all in one run. *)
Definition first_visit : @Inputs :=
  {| in_choice := "🤖 Chatbot";
     in_uploaded_file :=
       Some {| uf_name := "cats.pdf"; uf_size := 4;
               uf_buffer := [Byte.x25; Byte.x50; Byte.x44; Byte.x46] |};
     in_create_embeddings := true; in_user_input := Some "hi" |}.

Definition new_state : @State demo_types :=
  demo_state ∅ (@new_session demo_types).

Definition chatbot_page (checked : bool) (user_input : option string)
    : @Inputs :=
  {| in_choice := "🤖 Chatbot"; in_uploaded_file := None;
     in_create_embeddings := checked; in_user_input := user_input |}.

(** A session after the first run, before any upload. *)
Definition idle : @Session demo_types :=
  @Build_Session demo_types (Some None) (Some None) (Some []).

Definition import_error : exn :=
  mk_exn ImportError "No module named sentence_transformers".

(** The embedding model cannot be set up. *)
Definition model_missing : @Externals demo_types :=
  @Build_Externals demo_types
    (loader_init_error healthy) (loader_load_result healthy)
    (split_documents_result healthy) (λ _ _ _, Raise import_error)
    (from_documents_result healthy) (chatbot_init_result healthy)
    (get_response_result healthy) (b64encode healthy)
    (session_key_error_text healthy).

Definition home_page : @Inputs :=
  {| in_choice := "🏠 Home"; in_uploaded_file := None;
     in_create_embeddings := true; in_user_input := Some "hi" |}.

(** * Properties *)

(** ** The class hierarchy *)

Lemma issubclass_spec c d : issubclass c d = true ↔ d ∈ mro c.
Proof. unfold issubclass. apply bool_decide_eq_true. Qed.

Lemma mro_self c : c ∈ mro c.
Proof. destruct c; simpl; apply elem_of_cons; by left. Qed.

(** The ancestors of an ancestor are ancestors. *)
Lemma mro_closed c d : d ∈ mro c → mro d ⊆ mro c.
Proof.
  induction c as [| | | | | | | | | | | | |name base IH]; simpl; intros Hd.
  all: try (repeat (apply elem_of_cons in Hd as [->|Hd]);
            [by apply (bool_decide_unpack _).. | by apply elem_of_nil in Hd]).
  apply elem_of_cons in Hd as [->|Hd]; simpl; [done|].
  intros x Hx. apply elem_of_cons. right. by apply (IH Hd).
Qed.

Lemma issubclass_trans c d e :
  issubclass c d = true → issubclass d e = true → issubclass c e = true.
Proof.
  rewrite !issubclass_spec. intros Hd He. by apply (mro_closed c d).
Qed.

(** An exception outside [Exception] is none of the classes the handlers
    name. *)
Lemma not_Exception_not_subclass e c :
  isinstance e Exception = false → issubclass c Exception = true →
  isinstance e c = false.
Proof.
  unfold isinstance. intros Hn Hc.
  destruct (issubclass (exc_class e) c) eqn:Hec; [|done].
  by rewrite (issubclass_trans _ _ _ Hec Hc) in Hn.
Qed.

(** ** Running the monad *)

Ltac unfold_monad :=
  unfold mbind, M_bind, mret, M_ret, raise, log, of_outcome, try_except in *.

Ltac unfold_vectors :=
  unfold create_embeddings, os_path_exists, UnstructuredPDFLoader,
    loader_load, split_documents, Qdrant_from_documents,
    RecursiveCharacterTextSplitter in *.

Section Vectors.

Context `{Types}.
Variable ext : Externals.

Implicit Types (s : State) (self : EmbeddingsManager) (e : exn).

(** What an indexing run does once the file is there, the loader gave
    documents and the splitter gave chunks: it calls the vector database, and
    rewraps what that raises when it is an [Exception]. *)
Lemma create_embeddings_store self pdf_path s data docs splits :
  files s !! pdf_path = Some data →
  loader_init_error ext pdf_path = None →
  loader_load_result ext pdf_path (Some data) = Return docs →
  docs ≠ [] →
  split_documents_result ext 1000 250 docs = Return splits →
  splits ≠ [] →
  create_embeddings ext self pdf_path s =
    let r := from_documents_result ext splits (em_embeddings self)
               (em_qdrant_url self) false (em_collection_name self) (db s) in
    (match r.1 with
     | Return _ => Return success_message
     | Raise e =>
         if isinstance e Exception then Raise (qdrant_error e) else Raise e
     end,
     after_calls (indexing_calls self pdf_path docs splits) r.2 s).
Proof.
  intros Hfile Hinit Hload Hdocs Hsplit Hsplits.
  unfold_vectors. unfold_monad. simpl.
  rewrite !Hfile, Hinit. simpl. rewrite !Hfile, Hload.
  destruct docs as [|doc docs]; [done|]. simpl. rewrite Hsplit.
  destruct splits as [|chunk splits]; [done|]. simpl.
  unfold after_calls, indexing_calls. simpl.
  rewrite <- !app_assoc. simpl.
  destruct (from_documents_result _ _ _ _ _ _ _) as [[[]|e] d']; simpl;
    [done|].
  by destruct (isinstance e Exception).
Qed.

(** Evaluates an indexing run in a hypothesis, one collaborator answer after
    the other. *)
Ltac walk_run Hrun :=
  unfold_vectors; unfold_monad; simpl in Hrun;
  repeat (case_match; unfold raise in *; simplify_eq/=).

Ltac show_calls :=
  unfold after_calls; simpl; rewrite <- ?app_assoc; simpl.

(** C2. When the path is not on the filesystem, [create_embeddings] raises
    [FileNotFoundError] with a message that names the path, and the only call
    it has made is the existence test: no load, no split, no vector-database
    operation, and the database is as it was. *)
Theorem create_embeddings_missing_file self pdf_path s :
  files s !! pdf_path = None →
  create_embeddings ext self pdf_path s =
    (Raise (mk_exn FileNotFoundError
              ("The file " +:+ pdf_path +:+ " does not exits.")),
     after_calls [EvPathExists pdf_path] (db s) s).
Proof.
  intros Hfile. unfold_vectors. unfold_monad. simpl.
  by rewrite Hfile.
Qed.

(** C3. For a file that exists, when the loader yields no documents, or
    yields documents that the splitter turns into no chunks,
    [create_embeddings] raises [ValueError], and none of the calls it has made
    is to the vector database, which is as it was. *)
Theorem create_embeddings_empty_content self pdf_path s data :
  files s !! pdf_path = Some data →
  loader_init_error ext pdf_path = None →
  loader_load_result ext pdf_path (Some data) = Return []
  ∨ (∃ docs, loader_load_result ext pdf_path (Some data) = Return docs
             ∧ split_documents_result ext 1000 250 docs = Return []) →
  ∃ e evs,
    create_embeddings ext self pdf_path s = (Raise e, after_calls evs (db s) s)
    ∧ exc_class e = ValueError
    ∧ (e = no_documents_error ∨ e = no_chunks_error)
    ∧ Forall (λ ev, is_vector_db_call ev = false) evs.
Proof.
  intros Hfile Hinit Hempty.
  assert (Hnone : ∀ docs,
    loader_load_result ext pdf_path (Some data) = Return docs → docs = [] →
    create_embeddings ext self pdf_path s =
      (Raise no_documents_error,
       after_calls [EvPathExists pdf_path; EvLoaderInit pdf_path;
                    EvLoaderLoad pdf_path] (db s) s)).
  { intros docs Hload ->. unfold_vectors. unfold_monad. simpl.
    rewrite !Hfile, Hinit. simpl. rewrite !Hfile, Hload. simpl.
    by show_calls. }
  destruct Hempty as [Hload|(docs & Hload & Hsplit)].
  - exists no_documents_error. eexists. split; [by eapply Hnone|].
    repeat split; [by left|]. by repeat constructor.
  - destruct docs as [|doc docs].
    + exists no_documents_error. eexists. split; [by eapply Hnone|].
      repeat split; [by left|]. by repeat constructor.
    + exists no_chunks_error,
        [EvPathExists pdf_path; EvLoaderInit pdf_path; EvLoaderLoad pdf_path;
         EvSplitDocuments 1000 250 (doc :: docs)].
      split.
      * unfold_vectors. unfold_monad. simpl.
        rewrite !Hfile, Hinit. simpl. rewrite !Hfile, Hload. simpl.
        rewrite Hsplit. simpl. by show_calls.
      * repeat split; [by right|]. by repeat constructor.
Qed.

(** C6. The successful runs of [create_embeddings] are exactly those in which
    the file exists, the loader, given the path, returns documents, the
    splitter, given those documents, returns chunks, and the vector-database
    client, given those chunks, returns.  The calls are made in that order,
    and the value returned is the success message. *)
Theorem create_embeddings_success_order self pdf_path s msg s' :
  create_embeddings ext self pdf_path s = (Return msg, s') ↔
  ∃ data docs splits d',
    files s !! pdf_path = Some data
    ∧ loader_init_error ext pdf_path = None
    ∧ loader_load_result ext pdf_path (Some data) = Return docs ∧ docs ≠ []
    ∧ split_documents_result ext 1000 250 docs = Return splits ∧ splits ≠ []
    ∧ from_documents_result ext splits (em_embeddings self)
        (em_qdrant_url self) false (em_collection_name self) (db s)
      = (Return (), d')
    ∧ msg = success_message
    ∧ s' = after_calls
             [ EvPathExists pdf_path; EvLoaderInit pdf_path;
               EvLoaderLoad pdf_path; EvSplitDocuments 1000 250 docs;
               EvQdrantFromDocuments splits (em_embeddings self)
                 (em_qdrant_url self) false (em_collection_name self) ]
             d' s.
Proof.
  split.
  - intros Hrun. walk_run Hrun.
    destruct (files s !! pdf_path) as [data|] eqn:Hfile; [|done].
    match goal with Hst : (?r).1 = Return ?u |- _ =>
      destruct r as [o d'] eqn:Hstore; destruct u; simpl in *; subst o end.
    match goal with
    | Hdocs : is_empty ?docs = false, Hsplits : is_empty ?splits = false |- _ =>
        exists data, docs, splits, d'; destruct docs, splits; try done
    end.
    repeat split; try done. by show_calls.
  - intros (data & docs & splits & d' & Hfile & Hinit & Hload & Hdocs
            & Hsplit & Hsplits & Hstore & -> & ->).
    rewrite (create_embeddings_store self pdf_path s data docs splits)
      by done.
    simpl. by rewrite Hstore.
Qed.

(** Where an exception that leaves [create_embeddings] comes from: one of
    its own three [raise] statements or its [except] clause, or a collaborator
    whose exception it lets through. *)
Lemma create_embeddings_raise_origin self pdf_path s e s' :
  create_embeddings ext self pdf_path s = (Raise e, s') →
  (e = missing_file_error pdf_path ∨ e = no_documents_error
   ∨ e = no_chunks_error
   ∨ ∃ e0, e = qdrant_error e0 ∧ isinstance e0 Exception = true)
  ∨ (loader_init_error ext pdf_path = Some e
     ∨ loader_load_result ext pdf_path (files s !! pdf_path) = Raise e
     ∨ (∃ docs, split_documents_result ext 1000 250 docs = Raise e)
     ∨ (isinstance e Exception = false
        ∧ ∃ splits,
            (from_documents_result ext splits (em_embeddings self)
               (em_qdrant_url self) false (em_collection_name self)
               (db s)).1 = Raise e)).
Proof.
  intros Hrun. walk_run Hrun; eauto 10.
Qed.

(** An exception of the vector-database client: caught and raised again as
    a [ConnectionError] when it is an [Exception], let through otherwise. *)
Lemma store_error_rewrapped
    self pdf_path s data docs splits e d' :
  files s !! pdf_path = Some data →
  loader_init_error ext pdf_path = None →
  loader_load_result ext pdf_path (Some data) = Return docs → docs ≠ [] →
  split_documents_result ext 1000 250 docs = Return splits → splits ≠ [] →
  from_documents_result ext splits (em_embeddings self) (em_qdrant_url self)
    false (em_collection_name self) (db s) = (Raise e, d') →
  create_embeddings ext self pdf_path s =
    (Raise (if isinstance e Exception then qdrant_error e else e),
     after_calls (indexing_calls self pdf_path docs splits) d' s).
Proof.
  intros Hfile Hinit Hload Hdocs Hsplit Hsplits Hstore.
  rewrite (create_embeddings_store self pdf_path s data docs splits) by done.
  simpl. rewrite Hstore. simpl. by destruct (isinstance e Exception).
Qed.

(** The amended C8. Once the run reaches the vector database, an exception
    the client raises that derives from [Exception], whatever its class, is
    raised again as a [ConnectionError] whose message is the fixed prefix
    followed by the text of the original; it does not leave with its own
    class.  An exception outside [Exception] is not caught and leaves as it
    is. *)
Theorem create_embeddings_rewraps_store_errors
    self pdf_path s data docs splits e d' :
  files s !! pdf_path = Some data →
  loader_init_error ext pdf_path = None →
  loader_load_result ext pdf_path (Some data) = Return docs → docs ≠ [] →
  split_documents_result ext 1000 250 docs = Return splits → splits ≠ [] →
  from_documents_result ext splits (em_embeddings self) (em_qdrant_url self)
    false (em_collection_name self) (db s) = (Raise e, d') →
  create_embeddings ext self pdf_path s =
    (Raise (if isinstance e Exception
            then mk_exn ConnectionError
                   ("Failed to connect to Qdrant: " +:+ exc_str e)
            else e),
     after_calls (indexing_calls self pdf_path docs splits) d' s).
Proof.
  intros Hfile Hinit Hload Hdocs Hsplit Hsplits Hstore.
  exact (store_error_rewrapped self pdf_path s data docs
           splits e d' Hfile Hinit Hload Hdocs Hsplit Hsplits Hstore).
Qed.

(** C10. When [create_embeddings] raises a [FileNotFoundError] or a
    [ValueError], none of the calls it has made is to the vector-database
    client, and the state of the database is the one it started from. *)
Theorem create_embeddings_failure_before_store self pdf_path s e s' :
  create_embeddings ext self pdf_path s = (Raise e, s') →
  isinstance e FileNotFoundError = true ∨ isinstance e ValueError = true →
  ∃ evs : list Event,
    trace s' = (trace s ++ evs)%list
    ∧ Forall (λ ev, is_vector_db_call ev = false) evs
    ∧ db s' = db s.
Proof.
  intros Hrun Hclass.
  assert (Hout : isinstance e Exception = false →
                 ¬ (isinstance e FileNotFoundError = true
                    ∨ isinstance e ValueError = true)).
  { intros Hn [Hc|Hc];
      by rewrite (not_Exception_not_subclass e _ Hn) in Hc. }
  walk_run Hrun.
  all: try (eexists; rewrite <- ?app_assoc; simpl;
            split; [reflexivity|]; split; [by repeat constructor|done]).
  - by destruct Hclass.
  - by destruct Hout.
Qed.

End Vectors.

Ltac unfold_session :=
  unfold messages_append, set_messages, set_chatbot_manager,
    set_temp_pdf_path, session_get, get_session, put_session, show in *.

Section Chat.

Context `{Types}.
Variable ext : Externals.

Implicit Types (s : State) (e : exn) (msgs : list (gmap string string)).

(** What the chat handler does with a non-empty input, by the answer of
    [get_response]. *)
Lemma chat_handler_run text s msgs bot :
  text ≠ "" →
  ss_messages (session s) = Some msgs →
  ss_chatbot_manager (session s) = Some (Some bot) →
  chat_handler ext (Some text) s =
    let r := get_response_result ext bot (db s) text in
    let answered answer :=
      (Return (),
       chat_state
         (msgs ++ [message "user" text; message "assistant" answer])
         [WChatMessage "user" text; WSpinner "Responding...";
          WChatMessage "assistant" answer]
         [EvGetResponse text] s) in
    match r with
    | Return answer => answered answer
    | Raise e =>
        if isinstance e Exception then answered (error_answer e)
        else (Raise e,
              chat_state (msgs ++ [message "user" text])
                [WChatMessage "user" text; WSpinner "Responding..."]
                [EvGetResponse text] s)
    end.
Proof.
  intros Htext Hmsgs Hbot.
  unfold chat_handler, get_response, bot_get_response.
  rewrite bool_decide_eq_false_2 by done.
  unfold_session. unfold_monad. simpl. rewrite Hmsgs, Hbot. simpl.
  unfold chat_state. simpl.
  destruct (get_response_result ext bot (db s) text) as [answer|e]; simpl.
  - by rewrite ?Hbot, <- !app_assoc.
  - destruct (isinstance e Exception); simpl;
      by rewrite ?Hbot, <- ?app_assoc.
Qed.

(** The amended C1. A submitted non-empty input that [get_response] answers
    with a reply, or with an exception that derives from [Exception], makes
    the handler append the user message and then the assistant message that
    holds the answer: the transcript is the old one followed by exactly
    these two. *)
Theorem chat_handler_appends_exchange text s msgs bot :
  text ≠ "" →
  ss_messages (session s) = Some msgs →
  ss_chatbot_manager (session s) = Some (Some bot) →
  (∀ e, get_response_result ext bot (db s) text = Raise e →
        isinstance e Exception = true) →
  ∃ s', chat_handler ext (Some text) s = (Return (), s')
        ∧ transcript s' =
            (msgs ++
             [ message "user" text;
               message "assistant"
                 (answer_text (get_response_result ext bot (db s) text)) ])%list.
Proof.
  intros Htext Hmsgs Hbot Herr.
  rewrite (chat_handler_run text s msgs bot) by done. simpl.
  destruct (get_response_result ext bot (db s) text) as [answer|e]; simpl.
  - by eexists.
  - rewrite (Herr e) by done. by eexists.
Qed.

(** The amended C9. When [get_response] raises an exception that derives
    from [Exception], the handler still returns, and the transcript is the old
    one followed by the user message and one assistant message whose content
    is the error text with the exception in it.  An exception outside
    [Exception] leaves the handler, and only the user message was added. *)
Theorem chat_handler_reports_exception text s msgs bot e :
  text ≠ "" →
  ss_messages (session s) = Some msgs →
  ss_chatbot_manager (session s) = Some (Some bot) →
  get_response_result ext bot (db s) text = Raise e →
  ∃ s',
    chat_handler ext (Some text) s =
      (if isinstance e Exception then Return () else Raise e, s')
    ∧ transcript s' =
        (if isinstance e Exception
         then msgs ++
              [ message "user" text;
                message "assistant"
                  ("⚠️ An error occurred while processing your request: "
                   +:+ exc_str e) ]
         else msgs ++ [message "user" text])%list.
Proof.
  intros Htext Hmsgs Hbot Hraise.
  rewrite (chat_handler_run text s msgs bot) by done. simpl.
  rewrite Hraise. destruct (isinstance e Exception); by eexists.
Qed.

End Chat.

Section Indexing.

Context `{Types}.
Variable ext : Externals.

Implicit Types (s : State) (e : exn).

(** The four [except] clauses: an [Exception] is shown, directly by one of
    the first three clauses or with the prefix of the last; anything else is
    not caught. *)
Lemma dispatch_embeddings_handlers e s :
  dispatch embeddings_handlers e s =
    if isinstance e Exception
    then (Return (), with_display [WError (shown_error e)] s)
    else (Raise e, s).
Proof.
  unfold embeddings_handlers, shown_error. simpl.
  destruct (isinstance e Exception) eqn:HE.
  - by destruct (isinstance e FileNotFoundError),
       (isinstance e ValueError), (isinstance e ConnectionError).
  - by rewrite !(not_Exception_not_subclass e _ HE).
Qed.

Lemma embeddings_column_run s pdf_path :
  ss_temp_pdf_path (session s) = Some (Some pdf_path) →
  embeddings_column ext true s =
    try_except (embeddings_try_body ext pdf_path) embeddings_handlers
      (with_display [WHeader "🧠 Embeddings"] s).
Proof.
  intros Hpath. unfold embeddings_column. unfold_session. unfold_monad.
  simpl. by rewrite Hpath.
Qed.

(** The column as a whole, by what the body of its [try] does. *)
Lemma embeddings_column_caught s pdf_path e s1 :
  ss_temp_pdf_path (session s) = Some (Some pdf_path) →
  embeddings_try_body ext pdf_path (with_display [WHeader "🧠 Embeddings"] s)
    = (Raise e, s1) →
  embeddings_column ext true s =
    if isinstance e Exception
    then (Return (), with_display [WError (shown_error e)] s1)
    else (Raise e, s1).
Proof.
  intros Hpath Hbody. rewrite (embeddings_column_run s pdf_path Hpath).
  unfold try_except. rewrite Hbody. apply dispatch_embeddings_handlers.
Qed.

(** The body of the [try] stops where [create_embeddings] raises. *)
Lemma embeddings_try_body_raise s pdf_path emb e s1 :
  bge_init_result ext "BAAI/bge-small-en" "cpu" encode_kwargs = Return emb →
  create_embeddings ext (app_manager emb) pdf_path
    (with_display [WSpinner "Generating Embeddings..."]
       (after_calls [EvBgeInit "BAAI/bge-small-en" "cpu" encode_kwargs]
          (db s) s)) = (Raise e, s1) →
  embeddings_try_body ext pdf_path s = (Raise e, s1).
Proof.
  intros Hbge Hrun.
  unfold embeddings_try_body, EmbeddingsManager_init,
    HuggingFaceBgeEmbeddings.
  unfold_session. unfold_monad. simpl. rewrite Hbge. simpl.
  unfold with_display, after_calls, app_manager in Hrun. simpl in Hrun.
  by rewrite Hrun.
Qed.

(** C4. When the vector-database step fails with an error,
    [create_embeddings] raises a [ConnectionError] whose message describes
    the failure, and the embeddings column of the page catches it, shows the
    message as an error and returns: nothing leaves the script. *)
Theorem vector_db_failure_is_reported s pdf_path data emb docs splits e d' :
  ss_temp_pdf_path (session s) = Some (Some pdf_path) →
  bge_init_result ext "BAAI/bge-small-en" "cpu" encode_kwargs = Return emb →
  files s !! pdf_path = Some data →
  loader_init_error ext pdf_path = None →
  loader_load_result ext pdf_path (Some data) = Return docs → docs ≠ [] →
  split_documents_result ext 1000 250 docs = Return splits → splits ≠ [] →
  from_documents_result ext splits emb "http://localhost:6333" false
    "vector_db" (db s) = (Raise e, d') →
  isinstance e Exception = true →
  (∃ s1, create_embeddings ext (app_manager emb) pdf_path s =
           (Raise (mk_exn ConnectionError
                     ("Failed to connect to Qdrant: " +:+ exc_str e)), s1))
  ∧ ∃ s', embeddings_column ext true s = (Return (), s')
          ∧ display s' =
              (display s ++
               [ WHeader "🧠 Embeddings"; WSpinner "Generating Embeddings...";
                 WError ("Failed to connect to Qdrant: " +:+ exc_str e) ])%list
          ∧ session s' = session s.
Proof.
  intros Hpath Hbge Hfile Hinit Hload Hdocs Hsplit Hsplits Hstore HE.
  split.
  - eexists.
    rewrite (store_error_rewrapped ext (app_manager emb)
               pdf_path s data docs splits e d') by done.
    by rewrite HE.
  - set (s0 := with_display [WSpinner "Generating Embeddings..."]
                 (after_calls
                    [EvBgeInit "BAAI/bge-small-en" "cpu" encode_kwargs]
                    (db s) (with_display [WHeader "🧠 Embeddings"] s))).
    assert (Hrun : create_embeddings ext (app_manager emb) pdf_path s0 =
                     (Raise (qdrant_error e),
                      after_calls
                        (indexing_calls (app_manager emb) pdf_path docs
                           splits) d' s0)).
    { rewrite (store_error_rewrapped ext (app_manager emb)
                 pdf_path s0 data docs splits e d') by done.
      by rewrite HE. }
    pose proof (embeddings_try_body_raise _ _ _ _ _ Hbge Hrun) as Hbody.
    rewrite (embeddings_column_caught s pdf_path _ _ Hpath Hbody).
    eexists. split; [reflexivity|]. simpl.
    split; [by rewrite <- !app_assoc|done].
Qed.

(** An exception that leaves the embeddings column is not an
    [Exception]. *)
Lemma embeddings_column_escape checked s e s' :
  is_Some (ss_temp_pdf_path (session s)) →
  embeddings_column ext checked s = (Raise e, s') →
  isinstance e Exception = false.
Proof.
  intros [[pdf_path|] Hpath] Hrun.
  - destruct checked.
    + rewrite (embeddings_column_run s pdf_path Hpath) in Hrun.
      unfold try_except in Hrun.
      destruct (embeddings_try_body _ _ _) as [[[]|e0] s1]; [done|].
      rewrite dispatch_embeddings_handlers in Hrun.
      destruct (isinstance e0 Exception) eqn:HE; [done|]. congruence.
    + done.
  - destruct checked; [|done].
    unfold embeddings_column in Hrun. unfold_session. unfold_monad.
    simpl in Hrun. by rewrite Hpath in Hrun.
Qed.

(** The amended C5. The error conditions [create_embeddings] raises itself
    are the missing file ([FileNotFoundError]), the empty document
    ([ValueError]) and the failure of the vector database
    ([ConnectionError]); any other exception that leaves it is one a
    collaborator raised.  The page shows an exception of these three classes
    as it is, shows every other exception that derives from [Exception] with
    the generic prefix, and returns in both cases.  An exception that does
    not derive from [Exception] is not caught: it leaves the column, and
    nothing else does. *)
Theorem indexing_errors_are_shown :
  (∀ self pdf_path s e s',
     create_embeddings ext self pdf_path s = (Raise e, s') →
     (e = missing_file_error pdf_path ∨ e = no_documents_error
      ∨ e = no_chunks_error
      ∨ ∃ e0, e = qdrant_error e0 ∧ isinstance e0 Exception = true)
     ∨ (loader_init_error ext pdf_path = Some e
        ∨ loader_load_result ext pdf_path (files s !! pdf_path) = Raise e
        ∨ (∃ docs, split_documents_result ext 1000 250 docs = Raise e)
        ∨ (isinstance e Exception = false
           ∧ ∃ splits,
               (from_documents_result ext splits (em_embeddings self)
                  (em_qdrant_url self) false (em_collection_name self)
                  (db s)).1 = Raise e)))
  ∧ (∀ s pdf_path e s1,
       ss_temp_pdf_path (session s) = Some (Some pdf_path) →
       embeddings_try_body ext pdf_path
         (with_display [WHeader "🧠 Embeddings"] s) = (Raise e, s1) →
       embeddings_column ext true s =
         if isinstance e Exception
         then (Return (), with_display [WError (shown_error e)] s1)
         else (Raise e, s1))
  ∧ (∀ e,
       isinstance e FileNotFoundError = true ∨ isinstance e ValueError = true
       ∨ isinstance e ConnectionError = true →
       shown_error e = exc_str e)
  ∧ (∀ e,
       isinstance e FileNotFoundError = false →
       isinstance e ValueError = false →
       isinstance e ConnectionError = false →
       shown_error e = "An unexpected error occurred: " +:+ exc_str e)
  ∧ (∀ checked s e s',
       is_Some (ss_temp_pdf_path (session s)) →
       embeddings_column ext checked s = (Raise e, s') →
       isinstance e Exception = false).
Proof.
  split; [|split; [|split; [|split]]].
  - intros self pdf_path s e s'. apply create_embeddings_raise_origin.
  - intros s pdf_path e s1. apply embeddings_column_caught.
  - intros e Hclass. unfold shown_error.
    destruct Hclass as [-> | [-> | ->]]; simpl; [done| |].
    + by rewrite orb_true_r.
    + by rewrite !orb_true_r.
  - intros e H1 H2 H3. unfold shown_error. by rewrite H1, H2, H3.
  - intros checked s e s'. apply embeddings_column_escape.
Qed.

End Indexing.

(** ** The transcript invariant *)

Create HintDb transcript.

Section Transcript.

Context `{Types}.

Implicit Types (s : State) (e : exn) (msg : gmap string string).

Lemma valid_message_user text : valid_message (message "user" text).
Proof.
  unfold valid_message, message. split.
  - left. by rewrite lookup_insert_eq.
  - rewrite lookup_insert_ne by done. rewrite lookup_singleton_eq. by eexists.
Qed.

Lemma valid_message_assistant answer :
  valid_message (message "assistant" answer).
Proof.
  unfold valid_message, message. split.
  - right. by rewrite lookup_insert_eq.
  - rewrite lookup_insert_ne by done. rewrite lookup_singleton_eq. by eexists.
Qed.

Lemma transcript_ok_session s s' :
  session s' = session s → transcript_ok s → transcript_ok s'.
Proof. unfold transcript_ok, transcript. by intros ->. Qed.

Lemma keeps_session_preserves {A} (m : M A) :
  keeps_session m → preserves transcript_ok m.
Proof. intros Hm s Hs. by apply (transcript_ok_session s). Qed.

(** *** The combinators *)

Lemma preserves_ret {A} (P : State → Prop) (a : A) : preserves P (mret a).
Proof. by intros s. Qed.

Lemma preserves_raise {A} (P : State → Prop) e : preserves P (@raise _ A e).
Proof. by intros s. Qed.

Lemma preserves_bind {A B} (P : State → Prop) (m : M A) (k : A → M B) :
  preserves P m → (∀ a, preserves P (k a)) → preserves P (m ≫= k).
Proof.
  intros Hm Hk s Hs. unfold mbind, M_bind.
  specialize (Hm s Hs). destruct (m s) as [[a|e] s1]; simpl in *; [|done].
  by apply Hk.
Qed.

Lemma preserves_dispatch {A} (P : State → Prop)
    (clauses : list (pyclass * (exn → M A))) e :
  Forall (λ clause, ∀ e', preserves P (clause.2 e')) clauses →
  preserves P (dispatch clauses e).
Proof.
  induction 1 as [|[c h] rest Hh _ IH]; simpl.
  - apply preserves_raise.
  - destruct (isinstance e c); [apply Hh|apply IH].
Qed.

Lemma preserves_try_except {A} (P : State → Prop) (body : M A) clauses :
  preserves P body →
  Forall (λ clause, ∀ e, preserves P (clause.2 e)) clauses →
  preserves P (try_except body clauses).
Proof.
  intros Hbody Hclauses s Hs. unfold try_except.
  specialize (Hbody s Hs). destruct (body s) as [[a|e] s1]; simpl in *.
  - done.
  - by apply preserves_dispatch.
Qed.

Lemma keeps_session_ret {A} (a : A) : keeps_session (mret a).
Proof. by intros s. Qed.

Lemma keeps_session_raise {A} e : keeps_session (@raise _ A e).
Proof. by intros s. Qed.

Lemma keeps_session_bind {A B} (m : M A) (k : A → M B) :
  keeps_session m → (∀ a, keeps_session (k a)) → keeps_session (m ≫= k).
Proof.
  intros Hm Hk s. unfold mbind, M_bind.
  specialize (Hm s). destruct (m s) as [[a|e] s1]; simpl in *; [|done].
  by rewrite Hk.
Qed.

Lemma keeps_session_log ev : keeps_session (log ev).
Proof. by intros s. Qed.

Lemma keeps_session_show w : keeps_session (show w).
Proof. by intros s. Qed.

Lemma keeps_session_of_outcome {A} (o : outcome A) :
  keeps_session (of_outcome o).
Proof. by intros s. Qed.

Lemma keeps_session_write_file path data :
  keeps_session (write_file path data).
Proof. by intros s. Qed.

Lemma keeps_session_dict_get msg key : keeps_session (dict_get msg key).
Proof. intros s. unfold dict_get. by destruct (msg !! key). Qed.

Lemma keeps_session_session_get {A} ext (field : Session → option A) key :
  keeps_session (session_get ext field key).
Proof.
  intros s. unfold session_get, get_session. unfold_monad. simpl.
  by destruct (field (session s)).
Qed.

Hint Resolve keeps_session_ret keeps_session_raise keeps_session_log
  keeps_session_show keeps_session_of_outcome keeps_session_write_file
  keeps_session_dict_get keeps_session_session_get : transcript.

Variable ext : Externals.

Lemma keeps_session_create_embeddings self pdf_path :
  keeps_session (create_embeddings ext self pdf_path).
Proof.
  intros s. unfold_vectors. unfold_monad. simpl.
  repeat (case_match; unfold raise in *; simplify_eq/=); done.
Qed.

Lemma keeps_session_EmbeddingsManager_init model_name device kwargs url coll :
  keeps_session
    (EmbeddingsManager_init ext model_name device kwargs url coll).
Proof.
  intros s. unfold EmbeddingsManager_init, HuggingFaceBgeEmbeddings.
  unfold_monad. simpl. by case_match.
Qed.

Lemma keeps_session_ChatBotManager args :
  keeps_session (ChatBotManager ext args).
Proof.
  by intros s.
Qed.

Lemma keeps_session_bot_get_response bot text :
  keeps_session (bot_get_response ext bot text).
Proof.
  by intros s.
Qed.

Lemma keeps_session_displayPDF file : keeps_session (displayPDF ext file).
Proof. by intros s. Qed.

Lemma keeps_session_show_messages msgs :
  keeps_session (show_messages msgs).
Proof.
  induction msgs as [|msg rest IH]; simpl; [by intros s|].
  apply keeps_session_bind; [apply keeps_session_dict_get|]. intros role.
  apply keeps_session_bind; [|done].
  case_bool_decide.
  - apply keeps_session_bind; eauto with transcript.
  - apply keeps_session_bind; [eauto with transcript|]. intros role'.
    case_bool_decide; [|eauto with transcript].
    apply keeps_session_bind; eauto with transcript.
Qed.

Hint Resolve keeps_session_create_embeddings
  keeps_session_EmbeddingsManager_init keeps_session_ChatBotManager
  keeps_session_bot_get_response keeps_session_displayPDF
  keeps_session_show_messages : transcript.

(** *** The writes to the session *)

Lemma preserves_set_temp_pdf_path v :
  preserves transcript_ok (set_temp_pdf_path v).
Proof. by intros s Hs. Qed.

Lemma preserves_set_chatbot_manager v :
  preserves transcript_ok (set_chatbot_manager v).
Proof. by intros s Hs. Qed.

Lemma preserves_set_messages msgs :
  Forall valid_message msgs → preserves transcript_ok (set_messages msgs).
Proof. by intros Hmsgs s Hs. Qed.

(** Appending a valid message keeps the transcript valid; on a session
    without the key the append raises and changes nothing. *)
Lemma preserves_messages_append msg :
  valid_message msg → preserves transcript_ok (messages_append ext msg).
Proof.
  intros Hmsg s Hs. unfold transcript_ok, transcript in *.
  unfold_session. unfold_monad. simpl.
  destruct (ss_messages (session s)) as [msgs|] eqn:Hmsgs; simpl.
  - apply Forall_app. split; [done|]. by constructor.
  - by rewrite Hmsgs.
Qed.

Lemma preserves_init_session : preserves transcript_ok init_session.
Proof.
  intros s Hs. unfold init_session. unfold_session. unfold_monad. simpl.
  unfold transcript_ok, transcript in *.
  destruct (ss_temp_pdf_path (session s)) eqn:Hpath,
    (ss_chatbot_manager (session s)) eqn:Hbot,
    (ss_messages (session s)) eqn:Hmsgs;
    simpl; rewrite ?Hpath, ?Hbot, ?Hmsgs; simpl; rewrite ?Hmsgs;
    first [done|constructor].
Qed.

Lemma init_session_new s :
  session s = new_session → transcript (init_session s).2 = [].
Proof.
  intros Hnew. unfold init_session. unfold_session. unfold_monad. simpl.
  rewrite Hnew. unfold new_session. simpl. by rewrite Hnew.
Qed.

Hint Resolve preserves_ret preserves_raise preserves_set_temp_pdf_path
  preserves_set_chatbot_manager preserves_init_session
  valid_message_user valid_message_assistant : transcript.

Ltac keep_session :=
  solve [apply keeps_session_preserves; eauto with transcript].

(** *** The columns of the page *)

Lemma preserves_upload_column uploaded_file :
  preserves transcript_ok (upload_column ext uploaded_file).
Proof.
  unfold upload_column.
  apply preserves_bind; [keep_session|]. intros _.
  destruct uploaded_file as [file|]; [|eauto with transcript].
  repeat (apply preserves_bind; [keep_session|]; intros _).
  apply preserves_set_temp_pdf_path.
Qed.

Lemma preserves_embeddings_column checked :
  preserves transcript_ok (embeddings_column ext checked).
Proof.
  unfold embeddings_column.
  apply preserves_bind; [keep_session|]. intros _.
  destruct checked; [|eauto with transcript].
  apply preserves_bind; [keep_session|]. intros [pdf_path|]; [|keep_session].
  apply preserves_try_except.
  - unfold embeddings_try_body.
    apply preserves_bind; [keep_session|]. intros manager.
    apply preserves_bind; [keep_session|]. intros _.
    apply preserves_bind; [keep_session|]. intros result.
    apply preserves_bind; [keep_session|]. intros _.
    apply preserves_bind; [keep_session|]. intros [bot|].
    + eauto with transcript.
    + apply preserves_bind; [keep_session|]. intros bot.
      apply preserves_set_chatbot_manager.
  - unfold embeddings_handlers.
    repeat (constructor; [intros e; simpl; keep_session|]). constructor.
Qed.

Lemma keeps_session_get_response text :
  keeps_session (get_response ext text).
Proof.
  unfold get_response.
  apply keeps_session_bind; [eauto with transcript|].
  intros [bot|]; eauto with transcript.
Qed.

Lemma preserves_chat_handler user_input :
  preserves transcript_ok (chat_handler ext user_input).
Proof.
  unfold chat_handler. destruct user_input as [text|]; [|eauto with transcript].
  case_bool_decide; [eauto with transcript|].
  apply preserves_bind;
    [apply preserves_messages_append; eauto with transcript|]. intros _.
  apply preserves_bind; [keep_session|]. intros _.
  apply preserves_bind; [keep_session|]. intros _.
  apply preserves_bind.
  - apply preserves_try_except.
    + apply keeps_session_preserves, keeps_session_get_response.
    + repeat constructor. intros e. simpl. eauto with transcript.
  - intros answer.
    apply preserves_bind;
      [apply preserves_messages_append; eauto with transcript|]. intros _.
    keep_session.
Qed.

Lemma preserves_chat_column user_input :
  preserves transcript_ok (chat_column ext user_input).
Proof.
  unfold chat_column.
  apply preserves_bind; [keep_session|]. intros _.
  apply preserves_bind; [keep_session|]. intros [bot|]; [|keep_session].
  apply preserves_bind; [keep_session|]. intros msgs.
  apply preserves_bind; [keep_session|]. intros _.
  apply preserves_chat_handler.
Qed.

(** One run of the script keeps the transcript valid, whether it ends or an
    exception leaves it. *)
Lemma preserves_script_run inp :
  preserves transcript_ok (script_run ext inp).
Proof.
  unfold script_run.
  apply preserves_bind; [apply preserves_init_session|]. intros _.
  repeat (apply preserves_bind; [keep_session|]; intros _).
  case_bool_decide.
  - apply preserves_bind; [keep_session|intros _; keep_session].
  - case_bool_decide; [|eauto with transcript].
    repeat (apply preserves_bind; [keep_session|]; intros _).
    apply preserves_bind; [apply preserves_upload_column|]. intros _.
    apply preserves_bind; [apply preserves_embeddings_column|]. intros _.
    apply preserves_chat_column.
Qed.

End Transcript.

(** Every state a session can reach has a valid transcript. *)
Lemma reachable_transcript_ok `{Types} (s : State) :
  reachable s → transcript_ok s.
Proof.
  induction 1 as [s Hnew|ext inp s _ IH|fs d s _ IH].
  - unfold transcript_ok, transcript. rewrite Hnew. constructor.
  - by apply preserves_script_run.
  - done.
Qed.

(** C7. Every message of the transcript has the role user or assistant and
    has a content.  The transcript starts empty; the invariant holds in every
    state a session reaches by running the script any number of times,
    whatever the collaborators answer and also when an exception leaves a
    run; and it holds after each operation that writes the transcript: the
    two appends of the chat handler and the handler as a whole. *)
Theorem transcript_invariant `{Types} :
  (∀ s : State, session s = new_session → transcript (init_session s).2 = [])
  ∧ (∀ s : State, reachable s → Forall valid_message (transcript s))
  ∧ (∀ ext (text : string) (s : State),
       transcript_ok s →
       transcript_ok (messages_append ext (message "user" text) s).2
       ∧ transcript_ok (messages_append ext (message "assistant" text) s).2)
  ∧ (∀ ext user_input (s : State),
       transcript_ok s → transcript_ok (chat_handler ext user_input s).2).
Proof.
  split; [|split; [|split]].
  - intros s. apply init_session_new.
  - intros s. apply reachable_transcript_ok.
  - intros ext text s Hs. split.
    + apply preserves_messages_append; [apply valid_message_user|done].
    + apply preserves_messages_append; [apply valid_message_assistant|done].
  - intros ext user_input s. apply preserves_chat_handler.
Qed.

(** * Further properties of the two files *)

(** Brings the state a run ends in into the form of [after_calls]. *)
Ltac show_run := unfold after_calls; simpl; rewrite <- ?app_assoc; simpl.

(** ** The session keys *)

Section Session.

Context `{Types}.

Implicit Types (s : State).

(** X1. The initialisation of lines 22 to 29 returns and leaves the three
    keys set.  A key that was set keeps its value, so the uploaded path, the
    chatbot and the transcript survive the next run of the script; a key
    that was missing gets [None], [None] and the empty list.  Nothing but the
    session changes, and running the initialisation again changes
    nothing. *)
Theorem init_session_sets_missing_keys s :
  ∃ s', init_session s = (Return (), s')
    ∧ initialised s'
    ∧ ss_temp_pdf_path (session s')
      = Some (default None (ss_temp_pdf_path (session s)))
    ∧ ss_chatbot_manager (session s')
      = Some (default None (ss_chatbot_manager (session s)))
    ∧ ss_messages (session s') = Some (default [] (ss_messages (session s)))
    ∧ files s' = files s ∧ db s' = db s ∧ trace s' = trace s
    ∧ display s' = display s
    ∧ init_session s' = (Return (), s').
Proof.
  unfold init_session, initialised. unfold_session. unfold_monad. simpl.
  destruct (ss_temp_pdf_path (session s)) eqn:Hpath,
    (ss_chatbot_manager (session s)) eqn:Hbot,
    (ss_messages (session s)) eqn:Hmsgs;
    simpl; rewrite ?Hpath, ?Hbot, ?Hmsgs; simpl; rewrite ?Hmsgs; simpl;
    (eexists; split; [reflexivity|]); simpl;
    rewrite ?Hpath, ?Hbot, ?Hmsgs; simpl; rewrite ?Hpath, ?Hbot, ?Hmsgs;
    repeat split; eauto.
Qed.

End Session.

(** ** The calls of an indexing run, also when it fails *)

Section Calls.

Context `{Types}.
Variable ext : Externals.

Implicit Types (s : State) (self : EmbeddingsManager).

(** Every run of [create_embeddings] goes one of the eight ways. *)
Lemma create_embeddings_run self pdf_path s :
  ∃ o evs d',
    create_embeddings ext self pdf_path s = (o, after_calls evs d' s)
    ∧ indexing_result ext self pdf_path s o evs d'.
Proof.
  destruct (files s !! pdf_path) as [data|] eqn:Hfile.
  2:{ eexists _, _, _. split; [|by apply indexing_missing].
      unfold_vectors. unfold_monad. simpl. by rewrite Hfile. }
  destruct (loader_init_error ext pdf_path) as [e|] eqn:Hinit.
  { eexists _, _, _. split; [|by eapply indexing_loader_refused].
    unfold_vectors. unfold_monad. simpl. rewrite Hfile, Hinit. simpl.
    by show_run. }
  destruct (loader_load_result ext pdf_path (Some data)) as [docs|e] eqn:Hload.
  2:{ eexists _, _, _. split; [|by eapply indexing_load_raised].
      unfold_vectors. unfold_monad. simpl.
      rewrite !Hfile, Hinit. simpl. rewrite !Hfile, Hload. by show_run. }
  destruct docs as [|doc docs].
  { eexists _, _, _. split; [|by eapply indexing_no_documents].
    unfold_vectors. unfold_monad. simpl.
    rewrite !Hfile, Hinit. simpl. rewrite !Hfile, Hload. by show_run. }
  destruct (split_documents_result ext 1000 250 (doc :: docs))
    as [splits|e] eqn:Hsplit.
  2:{ eexists _, _, _. split; [|by eapply indexing_split_raised].
      unfold_vectors. unfold_monad. simpl.
      rewrite !Hfile, Hinit. simpl. rewrite !Hfile, Hload. simpl.
      rewrite Hsplit. by show_run. }
  destruct splits as [|chunk splits].
  { eexists _, _, _. split; [|by eapply indexing_no_chunks].
    unfold_vectors. unfold_monad. simpl.
    rewrite !Hfile, Hinit. simpl. rewrite !Hfile, Hload. simpl.
    rewrite Hsplit. by show_run. }
  rewrite (create_embeddings_store ext self pdf_path s data (doc :: docs)
             (chunk :: splits)) by done.
  simpl.
  destruct (from_documents_result _ _ _ _ _ _ _) as [[[]|e] d'] eqn:Hstore;
    simpl; eexists _, _, _; (split; [reflexivity|]).
  - by eapply indexing_stored.
  - replace (if isinstance e Exception then Raise (qdrant_error e)
             else Raise e)
      with (@Raise string
              (if isinstance e Exception then qdrant_error e else e))
      by (by destruct (isinstance e Exception)).
    by eapply indexing_store_raised.
Qed.

(** X5. In every run of [create_embeddings], failing or not, the calls made
    are an initial part of the fixed sequence: existence test, loader
    construction, load, split, store.  So no collaborator is called twice,
    none is called before the one in front of it returned, and nothing is
    retried.  The files, the session and the page are left alone, and the
    database can only differ when the store was called. *)
Theorem create_embeddings_calls_prefix self pdf_path s :
  ∃ docs splits (evs : list Event),
    trace (create_embeddings ext self pdf_path s).2 = (trace s ++ evs)%list
    ∧ evs `prefix_of` indexing_calls self pdf_path docs splits
    ∧ evs ≠ []
    ∧ files (create_embeddings ext self pdf_path s).2 = files s
    ∧ session (create_embeddings ext self pdf_path s).2 = session s
    ∧ display (create_embeddings ext self pdf_path s).2 = display s
    ∧ (db (create_embeddings ext self pdf_path s).2 = db s
       ∨ evs = indexing_calls self pdf_path docs splits).
Proof.
  destruct (create_embeddings_run self pdf_path s)
    as (o & evs & d' & -> & Hrun).
  unfold indexing_calls.
  destruct Hrun; simpl;
    first [ exists docs, splits | exists docs, [] | exists [], [] ];
    (eexists; split; [reflexivity|]);
    (split; [by eexists|]); repeat split; auto.
Qed.

End Calls.

(** ** The display of the transcript *)

Section Display.

Context `{Types}.

Implicit Types (s : State) (msg : gmap string string).

Lemma with_display_app (ws1 ws2 : list Widget) s :
  with_display ws2 (with_display ws1 s) = with_display (ws1 ++ ws2) s.
Proof. unfold with_display; simpl. by rewrite <- app_assoc. Qed.

Lemma with_display_nil s : with_display [] s = s.
Proof. destruct s. unfold with_display; simpl. by rewrite app_nil_r. Qed.

(** The loop shows the first message, then the others. *)
Lemma show_messages_cons msg rest s :
  show_messages (msg :: rest) s =
    match show_messages [msg] s with
    | (Return _, s1) => show_messages rest s1
    | (Raise e, s1) => (Raise e, s1)
    end.
Proof.
  simpl. unfold_monad.
  destruct (dict_get msg "role" s) as [[role|e] s1]; [|done].
  by destruct (_ s1) as [[[]|e] s2].
Qed.

Lemma show_messages_app msgs1 msgs2 s :
  show_messages (msgs1 ++ msgs2) s =
    match show_messages msgs1 s with
    | (Return _, s1) => show_messages msgs2 s1
    | (Raise e, s1) => (Raise e, s1)
    end.
Proof.
  revert s. induction msgs1 as [|msg rest IH]; intros s; [done|].
  rewrite <- app_comm_cons, (show_messages_cons msg (rest ++ msgs2)),
    (show_messages_cons msg rest).
  destruct (show_messages [msg] s) as [[[]|e] s1]; [apply IH|done].
Qed.

(** A message with a role the loop knows and a content is shown as one chat
    message. *)
Lemma show_messages_one msg role content s :
  msg !! "role" = Some role → role = "user" ∨ role = "assistant" →
  msg !! "content" = Some content →
  show_messages [msg] s = (Return (), with_display [WChatMessage role content] s).
Proof.
  intros Hrole Hknown Hcontent. simpl. unfold dict_get, show. unfold_monad.
  rewrite Hrole, Hcontent.
  destruct Hknown as [-> | ->]; simpl; by destruct s.
Qed.

Lemma show_messages_run msgs s :
  Forall valid_message msgs →
  ∃ ws,
    show_messages msgs s = (Return (), with_display ws s)
    ∧ Forall2 (λ msg w, ∃ role content,
                 msg !! "role" = Some role ∧ msg !! "content" = Some content
                 ∧ w = WChatMessage role content) msgs ws.
Proof.
  intros Hvalid. revert s.
  induction Hvalid as [|msg rest [Hrole [content Hcontent]] _ IH]; intros s.
  - exists []. by rewrite with_display_nil.
  - assert (∃ role, msg !! "role" = Some role
                    ∧ (role = "user" ∨ role = "assistant"))
      as (role & Hmsg & Hknown) by (destruct Hrole; eauto).
    rewrite (show_messages_cons msg rest),
      (show_messages_one msg role content s Hmsg Hknown Hcontent).
    destruct (IH (with_display [WChatMessage role content] s))
      as (ws & Hrun & Hws).
    exists (WChatMessage role content :: ws).
    rewrite Hrun, with_display_app. split; [done|].
    constructor; [|done]. by exists role, content.
Qed.

(** X6. For a transcript whose messages are all valid, the loop of lines 148
    to 152 returns and adds to the page one chat message per message of the
    transcript, in the same order, each under the role and with the content
    of its message. *)
Theorem show_messages_renders_transcript msgs s :
  Forall valid_message msgs →
  ∃ ws,
    show_messages msgs s = (Return (), with_display ws s)
    ∧ Forall2 (λ msg w, ∃ role content,
                 msg !! "role" = Some role ∧ msg !! "content" = Some content
                 ∧ w = WChatMessage role content) msgs ws.
Proof. apply show_messages_run. Qed.

(** X7. What the loop does with a message that is not valid.  A message
    whose role is neither user nor assistant is passed over, without a look
    at its content.  A message without a role raises the [KeyError] of the
    dict, whose text is the key in single quotes; the valid messages before
    it were shown, each as its chat message and in their order, and nothing
    of the message itself or of those after it is shown. *)
Theorem show_messages_invalid_message :
  (∀ msg role rest s,
     msg !! "role" = Some role → role ≠ "user" → role ≠ "assistant" →
     show_messages (msg :: rest) s = show_messages rest s)
  ∧ (∀ msgs msg rest s,
       Forall valid_message msgs → msg !! "role" = None →
       ∃ ws, show_messages (msgs ++ msg :: rest) s
             = (Raise (mk_exn KeyError "'role'"), with_display ws s)
             ∧ Forall2 (λ shown w, ∃ role content,
                          shown !! "role" = Some role
                          ∧ shown !! "content" = Some content
                          ∧ w = WChatMessage role content) msgs ws).
Proof.
  split.
  - intros msg role rest s Hrole Huser Hassistant.
    simpl. unfold dict_get. unfold_monad. rewrite Hrole.
    by rewrite !bool_decide_eq_false_2 by done.
  - intros msgs msg rest s Hvalid Hrole.
    destruct (show_messages_run msgs s Hvalid) as (ws & Hrun & Hws).
    exists ws. rewrite show_messages_app, Hrun. split; [|done].
    simpl. unfold dict_get, key_error. unfold_monad. by rewrite Hrole.
Qed.

End Display.

(** ** One run of the script, step by step *)

Section Run.

Context `{Types}.
Variable ext : Externals.
Variable t : list (gmap string string).

Implicit Types (s : State) (e : exn).

Lemma hoare_bind {A B} (Pre : State → Prop) (Mid : A → State → Prop)
    (m : M A) (k : A → M B) (Post : outcome B → State → Prop) :
  hoare Pre m (λ o s', match o with
                       | Return a => Mid a s'
                       | Raise e => Post (Raise e) s'
                       end) →
  (∀ a, hoare (Mid a) (k a) Post) →
  hoare Pre (m ≫= k) Post.
Proof.
  intros Hm Hk s Hs. unfold mbind, M_bind. specialize (Hm s Hs).
  destruct (m s) as [[a|e] s1]; simpl in *; [by apply Hk|done].
Qed.

Lemma stays_run_post {A B} user_input e s :
  stays t (@Raise A e) s → run_post user_input t (@Raise B e) s.
Proof.
  intros [[Hinit Ht] Hcalm]. unfold run_post.
  split; [done|]. split; [by left|done].
Qed.

Lemma stay_bind {A B} (m : M A) (k : A → M B) :
  hoare (settled t) m (stays t) →
  (∀ a, hoare (settled t) (k a) (stays t)) →
  hoare (settled t) (m ≫= k) (stays t).
Proof.
  intros Hm Hk. apply (hoare_bind _ (λ _, settled t)); [|done].
  intros s Hs. specialize (Hm s Hs).
  destruct (m s) as [[a|e] s1]; simpl in *; [by destruct Hm|done].
Qed.

Lemma run_bind {A B} user_input (m : M A) (k : A → M B) :
  hoare (settled t) m (stays t) →
  (∀ a, hoare (settled t) (k a) (run_post user_input t)) →
  hoare (settled t) (m ≫= k) (run_post user_input t).
Proof.
  intros Hm Hk. apply (hoare_bind _ (λ _, settled t)); [|done].
  intros s Hs. specialize (Hm s Hs).
  destruct (m s) as [[a|e] s1]; simpl in *; [by destruct Hm|].
  by apply (stays_run_post (A:=A)).
Qed.

Lemma stays_weaken {A} user_input (m : M A) :
  hoare (settled t) m (stays t) →
  hoare (settled t) m (run_post user_input t).
Proof.
  intros Hm s Hs. destruct (Hm s Hs) as [[Hinit Ht] Hcalm].
  unfold run_post. split; [done|]. split; [by left|done].
Qed.

Lemma settled_session s s' :
  session s' = session s → settled t s → settled t s'.
Proof. unfold settled, initialised, transcript. by intros ->. Qed.

(** A step that returns and leaves the session alone. *)
Lemma stay_quiet {A} (m : M A) :
  keeps_session m → (∀ s, ∃ a, (m s).1 = Return a) →
  hoare (settled t) m (stays t).
Proof.
  intros Hkeep Hret s Hs. split; [by apply (settled_session s)|].
  intros _. destruct (Hret s) as [a ->]. done.
Qed.

Lemma stay_ret {A} (a : A) : hoare (settled t) (mret a) (stays t).
Proof. by intros s Hs. Qed.

Lemma stay_show w : hoare (settled t) (show w) (stays t).
Proof. by intros s Hs. Qed.

Lemma stay_set_temp_pdf_path v :
  hoare (settled t) (set_temp_pdf_path v) (stays t).
Proof.
  intros s [(Hpath & Hbot & Hmsgs) Ht]. by repeat split.
Qed.

Lemma stay_set_chatbot_manager v :
  hoare (settled t) (set_chatbot_manager v) (stays t).
Proof.
  intros s [(Hpath & Hbot & Hmsgs) Ht]. by repeat split.
Qed.

Lemma settled_keeps_session {A} (m : M A) :
  keeps_session m → preserves (settled t) m.
Proof. intros Hm s Hs. by apply (settled_session s). Qed.

(** Reading a key that is set returns its value. *)
Lemma session_get_bind {A B} (field : Session → option A) key
    (k : A → M B) (Post : outcome B → State → Prop) :
  (∀ s, initialised s → is_Some (field (session s))) →
  (∀ v, hoare (λ s, settled t s ∧ field (session s) = Some v) (k v) Post) →
  hoare (settled t) (session_get ext field key ≫= k) Post.
Proof.
  intros Hset Hk s Hs. destruct (Hset s (proj1 Hs)) as [v Hv].
  specialize (Hk v s (conj Hs Hv)).
  unfold session_get, get_session in *. unfold_monad. simpl.
  by rewrite Hv.
Qed.

Lemma upload_column_stays uploaded_file :
  hoare (settled t) (upload_column ext uploaded_file) (stays t).
Proof.
  unfold upload_column. apply stay_bind; [apply stay_show|]. intros _.
  destruct uploaded_file as [file|]; [|apply stay_ret].
  do 4 (apply stay_bind; [apply stay_show|]; intros _).
  apply stay_bind.
  { apply stay_quiet; [by intros s|]. intros s. by eexists. }
  intros _. apply stay_bind.
  { apply stay_quiet; [by intros s|]. intros s. by eexists. }
  intros _. apply stay_set_temp_pdf_path.
Qed.

Lemma embeddings_try_body_settled pdf_path :
  preserves (settled t) (embeddings_try_body ext pdf_path).
Proof.
  unfold embeddings_try_body.
  apply preserves_bind.
  { apply settled_keeps_session, keeps_session_EmbeddingsManager_init. }
  intros manager.
  apply preserves_bind; [by apply settled_keeps_session|]. intros _.
  apply preserves_bind.
  { apply settled_keeps_session, keeps_session_create_embeddings. }
  intros result.
  apply preserves_bind; [by apply settled_keeps_session|]. intros _.
  apply preserves_bind.
  { apply settled_keeps_session, keeps_session_session_get. }
  intros [bot|]; [by intros s|].
  apply preserves_bind.
  { apply settled_keeps_session, keeps_session_ChatBotManager. }
  intros bot s Hs. by apply stay_set_chatbot_manager.
Qed.

Lemma embeddings_column_stays checked :
  hoare (settled t) (embeddings_column ext checked) (stays t).
Proof.
  unfold embeddings_column. apply stay_bind; [apply stay_show|]. intros _.
  destruct checked; [|apply stay_ret].
  apply (session_get_bind ss_temp_pdf_path); [by intros s (? & _)|].
  intros [pdf_path|]; [|by intros s [Hs _]; apply stay_show].
  intros s [Hs _]. unfold try_except.
  pose proof (embeddings_try_body_settled pdf_path s Hs) as Hbody.
  destruct (embeddings_try_body ext pdf_path s) as [[[]|e] s1];
    simpl in Hbody; cbv beta iota; [done|].
  rewrite dispatch_embeddings_handlers.
  destruct (isinstance e Exception) eqn:HE; simpl; [|done].
  split; [|done]. by apply (settled_session s1).
Qed.

Lemma hoare_pre {A} (Pre Pre' : State → Prop) (m : M A) Post :
  (∀ s, Pre' s → Pre s) → hoare Pre m Post → hoare Pre' m Post.
Proof. intros Himp Hm s Hs. by apply Hm, Himp. Qed.

Lemma show_messages_stays :
  hoare (settled t) (show_messages t) (stays t).
Proof.
  intros s Hs. split.
  - by apply (settled_session s); [apply keeps_session_show_messages|].
  - intros Hvalid. by destruct (show_messages_run t s Hvalid) as (ws & -> & _).
Qed.

(** The handler, from a state in which the keys are set. *)
Lemma chat_handler_run_post user_input :
  hoare (settled t) (chat_handler ext user_input) (run_post user_input t).
Proof.
  intros s [(Hpath & [manager Hbot] & [msgs Hmsgs]) Ht].
  assert (msgs = t) as ->.
  { unfold transcript in Ht. by rewrite Hmsgs in Ht. }
  unfold run_post.
  assert (Hsame : initialised s ∧ exchange user_input t (transcript s)
                  ∧ (Forall valid_message t → True)).
  { split; [by repeat split|]. split; [by left|done]. }
  destruct user_input as [text|]; [|done].
  destruct (decide (text = "")) as [->|Htext]; [done|].
  assert (Hgrown : ∀ new ws evs, initialised (chat_state new ws evs s)).
  { intros new ws evs. repeat split; simpl; eauto. }
  destruct manager as [bot|].
  - rewrite (chat_handler_run ext text s t bot) by done. simpl.
    destruct (get_response_result ext bot (db s) text) as [answer|e].
    + split; [done|]. split; [|done]. right. exists text. eauto.
    + destruct (isinstance e Exception) eqn:HE.
      * split; [done|]. split; [|done]. right. exists text. eauto.
      * split; [done|]. split; [|done]. right. exists text. eauto.
  - unfold chat_handler, get_response.
    rewrite bool_decide_eq_false_2 by done.
    unfold_session. unfold_monad. simpl. rewrite Hmsgs, Hbot. simpl.
    split; [repeat split; simpl; eauto|].
    split; [|done]. right. exists text. unfold transcript. simpl.
    rewrite <- app_assoc. eauto.
Qed.

Lemma chat_column_run_post user_input :
  hoare (settled t) (chat_column ext user_input) (run_post user_input t).
Proof.
  unfold chat_column. apply run_bind; [apply stay_show|]. intros _.
  apply (session_get_bind ss_chatbot_manager); [by intros s (_ & ? & _)|].
  intros [bot|].
  2:{ apply (hoare_pre (settled t)); [by intros s [Hs _]|].
      apply stays_weaken, stay_show. }
  intros s [Hs _]. revert s Hs.
  apply (session_get_bind ss_messages); [by intros s (_ & _ & ?)|].
  intros msgs s [Hs Hmsgs].
  assert (msgs = t) as ->.
  { destruct Hs as [_ Ht]. unfold transcript in Ht. by rewrite Hmsgs in Ht. }
  revert s Hs Hmsgs. intros s Hs _. revert s Hs.
  apply run_bind; [apply show_messages_stays|]. intros _.
  apply chat_handler_run_post.
Qed.

Lemma init_session_settles :
  hoare (λ s, transcript s = t) init_session
    (λ o s', o = Return () ∧ settled t s').
Proof.
  intros s Ht. unfold init_session, settled, initialised, transcript in *.
  unfold_session. unfold_monad. simpl.
  destruct (ss_temp_pdf_path (session s)) eqn:Hpath,
    (ss_chatbot_manager (session s)) eqn:Hbot,
    (ss_messages (session s)) eqn:Hmsgs;
    simpl; rewrite ?Hpath, ?Hbot, ?Hmsgs; simpl; rewrite ?Hmsgs; simpl;
    rewrite ?Hpath, ?Hbot, ?Hmsgs; simpl in *; repeat split; eauto.
Qed.

(** One run of the script: the keys are set at its end, the transcript has
    gained at most the exchange the input asks for, and when the transcript
    was valid no exception that is an [Exception] has left the run. *)
Lemma script_run_post inp :
  hoare (λ s, transcript s = t) (script_run ext inp)
    (run_post (in_user_input inp) t).
Proof.
  unfold script_run. apply (hoare_bind _ (λ _, settled t)).
  { intros s Ht. destruct (init_session_settles s Ht) as [Hret Hs].
    by rewrite Hret. }
  intros _. do 4 (apply run_bind; [apply stay_show|]; intros _).
  cbv zeta. case_bool_decide.
  { apply stays_weaken, stay_bind; [apply stay_show|].
    intros _. apply stay_show. }
  case_bool_decide; [|apply stays_weaken, stay_ret].
  do 2 (apply run_bind; [apply stay_show|]; intros _).
  apply run_bind; [apply upload_column_stays|]. intros _.
  apply run_bind; [apply embeddings_column_stays|]. intros _.
  apply chat_column_run_post.
Qed.

End Run.

(** ** The transcript over the runs of a session *)

Section Dialogue.

Context `{Types}.

Implicit Types (s : State).

Lemma dialogue_app msgs1 msgs2 :
  dialogue msgs1 → dialogue msgs2 → dialogue (msgs1 ++ msgs2).
Proof.
  intros H1 H2. induction H1; simpl; [done|by constructor..].
Qed.

Lemma exchange_dialogue user_input old new :
  exchange user_input old new → dialogue old → dialogue new.
Proof.
  intros [->|(text & _ & _ & [->|[answer ->]])] Hold; [done|..];
    apply dialogue_app; [done| |done|]; by repeat constructor.
Qed.

(** X8. One run of the script, whatever the page, the widgets and the
    collaborators do, never removes or changes a message of the transcript:
    the transcript after the run is the one before it, or that followed by
    the user message for the non-empty text of the chat input, or that
    followed by this user message and one assistant message. *)
Theorem script_run_transcript_exchange ext inp s :
  exchange (in_user_input inp) (transcript s)
    (transcript (script_run ext inp s).2).
Proof.
  by destruct (script_run_post ext (transcript s) inp s) as (_ & Hex & _).
Qed.

(** X9. In every state a session can reach, the transcript is a sequence of
    user messages each followed by at most one assistant message: an
    assistant message always comes directly after the user message it
    answers, and the transcript never starts with an assistant message. *)
Theorem reachable_transcript_dialogue s :
  reachable s → dialogue (transcript s).
Proof.
  induction 1 as [s Hnew|ext inp s _ IH|fs d s _ IH].
  - unfold transcript. rewrite Hnew. constructor.
  - destruct (script_run_post ext (transcript s) inp s) as (_ & Hex & _);
      [done|]. by eapply exchange_dialogue.
  - done.
Qed.

(** X10. From a state whose transcript is valid, a run of the script ends
    normally unless an exception that does not derive from [Exception]
    leaves it: no error of a collaborator, and no [KeyError] of the session
    or of a message, ends the run.  The three session keys are set at the
    end in both cases. *)
Theorem script_run_lets_no_error_out ext inp s :
  transcript_ok s →
  no_error_escapes (script_run ext inp s).1
  ∧ initialised (script_run ext inp s).2.
Proof.
  intros Hvalid.
  destruct (script_run_post ext (transcript s) inp s) as (Hinit & _ & Hcalm);
    [done|].
  split; [by apply Hcalm|done].
Qed.

End Dialogue.

(** ** The upload and the embeddings column *)

Section Columns.

Context `{Types}.
Variable ext : Externals.

Implicit Types (s : State) (e : exn).

(** X2. With a file in the uploader, the upload column returns, writes the
    bytes of the file to the fixed path temp.pdf, whatever the name of the
    file, and stores this path in the session; the chatbot, the transcript
    and the vector database are left alone.  Afterwards the loader is given
    exactly the uploaded bytes, and an indexing run for the stored path
    passes the existence test and gets to the loader. *)
Theorem upload_column_stores_file file s :
  ∃ s1,
    upload_column ext (Some file) s = (Return (), s1)
    ∧ files s1 = <["temp.pdf" := uf_buffer file]> (files s)
    ∧ ss_temp_pdf_path (session s1) = Some (Some "temp.pdf")
    ∧ ss_chatbot_manager (session s1) = ss_chatbot_manager (session s)
    ∧ ss_messages (session s1) = ss_messages (session s)
    ∧ db s1 = db s
    ∧ (loader_load ext {| file_path := "temp.pdf" |} s1).1
      = loader_load_result ext "temp.pdf" (Some (uf_buffer file))
    ∧ ∀ self, ∃ evs,
        trace (create_embeddings ext self "temp.pdf" s1).2
        = (trace s1 ++
           EvPathExists "temp.pdf" :: EvLoaderInit "temp.pdf" :: evs)%list.
Proof.
  unfold upload_column, displayPDF, write_file. unfold_session.
  unfold_monad. simpl. eexists. split; [reflexivity|]. simpl.
  assert (Hfile : (<["temp.pdf" := uf_buffer file]> (files s) : gmap _ _)
                  !! "temp.pdf" = Some (uf_buffer file))
    by apply lookup_insert_eq.
  repeat split.
  - unfold loader_load. unfold_monad. simpl. by rewrite Hfile.
  - intros self.
    match goal with |- context [create_embeddings ext self "temp.pdf" ?s1] =>
      destruct (create_embeddings_run ext self "temp.pdf" s1)
        as (o & evs & d' & -> & Hrun) end.
    destruct Hrun as [Hnone| | | | | | |]; simpl in *;
      [by rewrite Hfile in Hnone|by eexists..].
Qed.

(** The column when there is nothing to index. *)
Lemma embeddings_column_idle checked s :
  checked = false ∨ ss_temp_pdf_path (session s) = Some None →
  embeddings_column ext checked s =
    (Return (),
     with_display
       (WHeader "🧠 Embeddings" ::
        (if checked then [WWarning "⚠️ Please upload a PDF first."] else []))
       s).
Proof.
  intros Hidle. unfold embeddings_column. unfold_session. unfold_monad.
  unfold with_display. destruct checked; simpl; [|done].
  destruct Hidle as [|Hpath]; [done|]. rewrite Hpath. simpl.
  by rewrite <- app_assoc.
Qed.

(** X3. Without a stored upload, or with the box not ticked, the embeddings
    column only writes to the page: the header, and the warning when the box
    is ticked.  It calls no collaborator and creates no chatbot. *)
Theorem embeddings_column_needs_upload checked s :
  checked = false ∨ ss_temp_pdf_path (session s) = Some None →
  embeddings_column ext checked s =
    (Return (),
     with_display
       (WHeader "🧠 Embeddings" ::
        (if checked then [WWarning "⚠️ Please upload a PDF first."] else []))
       s).
Proof. apply embeddings_column_idle. Qed.

(** The body of the [try], by what the collaborators answer. *)
Lemma embeddings_try_body_run pdf_path s :
  embeddings_try_body ext pdf_path s =
    let s0 := after_calls [EvBgeInit "BAAI/bge-small-en" "cpu" encode_kwargs]
                (db s) s in
    match bge_init_result ext "BAAI/bge-small-en" "cpu" encode_kwargs with
    | Raise e => (Raise e, s0)
    | Return emb =>
        match create_embeddings ext (app_manager emb) pdf_path
                (with_display [WSpinner "Generating Embeddings..."] s0) with
        | (Raise e, s2) => (Raise e, s2)
        | (Return result, s2) =>
            let s3 := with_display [WSuccess result] s2 in
            match ss_chatbot_manager (session s3) with
            | None => (Raise (session_key_error ext "chatbot_manager"), s3)
            | Some (Some _) => (Return (), s3)
            | Some None =>
                let s4 := after_calls [EvChatBotInit] (db s3) s3 in
                match chatbot_init_result ext chatbot_args with
                | Raise e => (Raise e, s4)
                | Return bot => set_chatbot_manager (Some bot) s4
                end
            end
        end
    end.
Proof.
  unfold embeddings_try_body, EmbeddingsManager_init,
    HuggingFaceBgeEmbeddings, ChatBotManager.
  unfold_session. unfold_monad. simpl.
  destruct (bge_init_result _ _ _ _) as [emb|e]; [|done].
  unfold after_calls, with_display, app_manager. simpl.
  destruct (create_embeddings _ _ _ _) as [[result|e] s2]; [|done].
  simpl. by destruct (ss_chatbot_manager (session s2)) as [[bot|]|].
Qed.

(** The column with a stored path: the body of the [try], then the
    handlers. *)
Lemma embeddings_column_tried s pdf_path :
  ss_temp_pdf_path (session s) = Some (Some pdf_path) →
  embeddings_column ext true s =
    match embeddings_try_body ext pdf_path
            (with_display [WHeader "🧠 Embeddings"] s) with
    | (Return _, s1) => (Return (), s1)
    | (Raise e, s1) =>
        if isinstance e Exception
        then (Return (), with_display [WError (shown_error e)] s1)
        else (Raise e, s1)
    end.
Proof.
  intros Hpath. rewrite (embeddings_column_run ext s pdf_path Hpath).
  unfold try_except.
  destruct (embeddings_try_body _ _ _) as [[[]|e] s1]; [done|].
  apply dispatch_embeddings_handlers.
Qed.

(** X13. When the embedding model cannot be set up, the embeddings column
    stops there: the only call made is the one that builds the model, no
    file is read, the vector database and the session are left alone, and
    the exception is shown as an error when it derives from [Exception] and
    leaves the column otherwise. *)
Theorem embeddings_column_model_failure s pdf_path e :
  ss_temp_pdf_path (session s) = Some (Some pdf_path) →
  bge_init_result ext "BAAI/bge-small-en" "cpu" encode_kwargs = Raise e →
  embeddings_column ext true s =
    (if isinstance e Exception then Return () else Raise e,
     with_display
       (WHeader "🧠 Embeddings" ::
        (if isinstance e Exception then [WError (shown_error e)] else []))
       (after_calls [EvBgeInit "BAAI/bge-small-en" "cpu" encode_kwargs]
          (db s) s)).
Proof.
  intros Hpath Hbge. rewrite (embeddings_column_tried s pdf_path Hpath).
  rewrite embeddings_try_body_run. simpl. rewrite Hbge.
  unfold with_display, after_calls. simpl.
  destruct (isinstance e Exception); simpl; [|done].
  by rewrite <- app_assoc.
Qed.

Ltac run_indexing :=
  match goal with
  | |- context [create_embeddings ext ?self ?path ?st] =>
      let Hkeep := fresh "Hkeep" in
      let Hres := fresh "Hres" in
      let Heq := fresh "Heq" in
      destruct (create_embeddings_run ext self path st)
        as (o & evs & d' & Heq & Hres);
      rewrite Heq
  end.

(** X4. The embeddings column never replaces a chatbot that exists, and it
    creates one only at the end of a run in which the indexing succeeded:
    when the session goes from no chatbot to a chatbot, the box was ticked,
    the column returned, the page got the success message, and the calls
    made are the model set-up, the five indexing calls in their order and
    then the construction of the chatbot. *)
Theorem chatbot_manager_kept_or_created checked s :
  (∀ bot,
     ss_chatbot_manager (session s) = Some (Some bot) →
     ss_chatbot_manager (session (embeddings_column ext checked s).2)
     = Some (Some bot))
  ∧ (ss_chatbot_manager (session s) = Some None →
     ss_chatbot_manager (session (embeddings_column ext checked s).2)
     ≠ Some None →
     checked = true
     ∧ (embeddings_column ext checked s).1 = Return ()
     ∧ display (embeddings_column ext checked s).2
       = (display s ++
          [ WHeader "🧠 Embeddings"; WSpinner "Generating Embeddings...";
            WSuccess success_message ])%list
     ∧ ∃ emb pdf_path docs splits,
         ss_temp_pdf_path (session s) = Some (Some pdf_path)
         ∧ trace (embeddings_column ext checked s).2
           = (trace s ++
              EvBgeInit "BAAI/bge-small-en" "cpu" encode_kwargs ::
              indexing_calls (app_manager emb) pdf_path docs splits ++
              [EvChatBotInit])%list).
Proof.
  assert (Hidle : checked = false
                  ∨ ss_temp_pdf_path (session s) = Some None
                  ∨ ss_temp_pdf_path (session s) = None →
                  session (embeddings_column ext checked s).2 = session s).
  { intros [Hoff|[Hnone|Hunset]].
    - by rewrite embeddings_column_idle by (by left).
    - by rewrite embeddings_column_idle by (by right).
    - unfold embeddings_column. unfold_session. unfold_monad.
      destruct checked; simpl; [|done]. by rewrite Hunset. }
  destruct checked;
    [|split; [intros bot Hbot|intros Hbot []]; by rewrite Hidle by (by left)].
  destruct (ss_temp_pdf_path (session s)) as [[pdf_path|]|] eqn:Hpath;
    [|split; [intros bot Hbot|intros Hbot []]; by rewrite Hidle by eauto..].
  clear Hidle.
  rewrite (embeddings_column_tried s pdf_path Hpath).
  rewrite embeddings_try_body_run. simpl.
  destruct (bge_init_result _ _ _ _) as [emb|e].
  2:{ destruct (isinstance e Exception); simpl;
        (split; [done|by intros Hbot []]). }
  run_indexing. destruct Hres; simpl.
  1-6: try destruct (isinstance _ Exception); simpl;
       (split; [done|by intros Hbot []]).
  2:{ destruct (isinstance e Exception) eqn:HE; simpl; rewrite ?HE; simpl;
        (split; [done|by intros Hbot []]). }
  split.
  - intros bot Hbot. by rewrite Hbot.
  - intros Hbot. rewrite Hbot.
    destruct (chatbot_init_result ext chatbot_args) as [bot|e]; simpl.
    + intros _. split; [done|]. split; [done|]. split.
      * by rewrite <- !app_assoc.
      * exists emb, pdf_path, docs, splits. split; [done|].
        by rewrite <- !app_assoc.
    + destruct (isinstance e Exception); simpl; by intros [].
Qed.

(** X14. When the indexing succeeds, the embeddings column shows the
    success message and the vector database is in the state the store left
    it in, whatever happens next.  With a chatbot in the session the column
    returns and keeps it.  Without one it builds one: if that returns, the
    chatbot is stored; if it raises, the session still has no chatbot, the
    error is shown after the success message when it derives from
    [Exception] and leaves the column otherwise, and the stored chunks stay
    in the database. *)
Theorem embeddings_column_after_indexing
    s pdf_path data emb docs splits d' manager :
  ss_temp_pdf_path (session s) = Some (Some pdf_path) →
  ss_chatbot_manager (session s) = Some manager →
  bge_init_result ext "BAAI/bge-small-en" "cpu" encode_kwargs = Return emb →
  files s !! pdf_path = Some data →
  loader_init_error ext pdf_path = None →
  loader_load_result ext pdf_path (Some data) = Return docs → docs ≠ [] →
  split_documents_result ext 1000 250 docs = Return splits → splits ≠ [] →
  from_documents_result ext splits emb "http://localhost:6333" false
    "vector_db" (db s) = (Return (), d') →
  ∃ o s',
    embeddings_column ext true s = (o, s')
    ∧ db s' = d' ∧ files s' = files s
    ∧ ss_messages (session s') = ss_messages (session s)
    ∧ match manager, chatbot_init_result ext chatbot_args with
      | Some bot, _ | None, Return bot =>
          o = Return ()
          ∧ ss_chatbot_manager (session s') = Some (Some bot)
          ∧ display s' =
              (display s ++
               [ WHeader "🧠 Embeddings";
                 WSpinner "Generating Embeddings...";
                 WSuccess success_message ])%list
      | None, Raise e =>
          o = (if isinstance e Exception then Return () else Raise e)
          ∧ ss_chatbot_manager (session s') = Some None
          ∧ display s' =
              (display s ++
               [ WHeader "🧠 Embeddings";
                 WSpinner "Generating Embeddings...";
                 WSuccess success_message ] ++
               (if isinstance e Exception then [WError (shown_error e)]
                else []))%list
      end.
Proof.
  intros Hpath Hbot Hbge Hfile Hinit Hload Hdocs Hsplit Hsplits Hstore.
  rewrite (embeddings_column_tried s pdf_path Hpath).
  rewrite embeddings_try_body_run. simpl. rewrite Hbge.
  match goal with |- context [create_embeddings ext ?self ?path ?st] =>
    rewrite (create_embeddings_store ext self path st data docs splits)
      by done end.
  simpl. rewrite Hstore. simpl. rewrite Hbot.
  destruct manager as [bot|]; simpl.
  - eexists _, _. split; [reflexivity|]. simpl.
    rewrite <- !app_assoc. by repeat split.
  - destruct (chatbot_init_result ext chatbot_args) as [bot|e]; simpl.
    + eexists _, _. split; [reflexivity|]. simpl.
      rewrite <- !app_assoc. by repeat split.
    + destruct (isinstance e Exception); simpl;
        (eexists _, _; split; [reflexivity|]); simpl;
        rewrite <- ?app_assoc; by repeat split.
Qed.

End Columns.

(** ** The chat column and the other pages *)

Section Pages.

Context `{Types}.
Variable ext : Externals.

Implicit Types (s : State).


(** X12. On the Home page, and for any choice that is not the chatbot page,
    a run returns without calling a collaborator or touching the files and
    the vector database: the uploader, the checkbox and the chat input are
    not looked at.  In the session a key that was set keeps its value and a
    missing key gets its initial value, so the uploaded path, the chatbot and
    the transcript are as before; the page gets the configuration, the
    sidebar and, on the Home page, the title and the welcome text. *)
Theorem other_pages_call_nothing inp s :
  in_choice inp ≠ "🤖 Chatbot" →
  ∃ s', script_run ext inp s = (Return (), s')
        ∧ trace s' = trace s ∧ files s' = files s ∧ db s' = db s
        ∧ ss_temp_pdf_path (session s')
          = Some (default None (ss_temp_pdf_path (session s)))
        ∧ ss_chatbot_manager (session s')
          = Some (default None (ss_chatbot_manager (session s)))
        ∧ ss_messages (session s')
          = Some (default [] (ss_messages (session s)))
        ∧ display s' =
            (display s ++
             [ WPageConfig "Chat with PDF app" "wide" "expanded";
               WImage "chatbot.png";
               WMarkdown "### Your personal Document Assistant";
               WMarkdown "---" ] ++
             (if bool_decide (in_choice inp = "🏠 Home")
              then [WTitle "Chat with PDF App"; WMarkdown home_text]
              else []))%list
        ∧ transcript s' = transcript s ∧ initialised s'.
Proof.
  intros Hpage. unfold script_run, init_session, initialised, transcript.
  unfold_session. unfold_monad. simpl.
  rewrite (bool_decide_eq_false_2 (in_choice inp = "🤖 Chatbot")) by done.
  destruct (ss_temp_pdf_path (session s)) eqn:Hpath,
    (ss_chatbot_manager (session s)) eqn:Hbot,
    (ss_messages (session s)) eqn:Hmsgs;
    simpl; rewrite ?Hpath, ?Hbot, ?Hmsgs; simpl; rewrite ?Hmsgs; simpl;
    case_bool_decide; simpl;
    (eexists; split; [reflexivity|]); simpl;
    rewrite ?Hpath, ?Hbot, ?Hmsgs, <- ?app_assoc; simpl;
    repeat split; eauto.
Qed.

End Pages.

(** * The theorems on concrete runs *)

#[local] Existing Instance demo_types.

Lemma create_embeddings_missing_file_witness :
  files (demo_state ∅ uploaded) !! "temp.pdf" = None
  ∧ create_embeddings healthy demo_manager "temp.pdf" (demo_state ∅ uploaded)
    = (Raise (mk_exn FileNotFoundError "The file temp.pdf does not exits."),
       @after_calls demo_types [EvPathExists "temp.pdf"] []
         (demo_state ∅ uploaded)).
Proof.
  split; [reflexivity|].
  apply (create_embeddings_missing_file healthy demo_manager "temp.pdf"
           (demo_state ∅ uploaded)).
  reflexivity.
Defined.

Lemma create_embeddings_empty_content_witness :
  ∃ e evs,
    create_embeddings healthy demo_manager "temp.pdf"
      (demo_state empty_pdf uploaded)
    = (Raise e, @after_calls demo_types evs [] (demo_state empty_pdf uploaded))
    ∧ exc_class e = ValueError
    ∧ (e = no_documents_error ∨ e = no_chunks_error)
    ∧ Forall (λ ev, is_vector_db_call ev = false) evs.
Proof.
  apply (create_embeddings_empty_content healthy demo_manager "temp.pdf"
           (demo_state empty_pdf uploaded) []);
    [reflexivity|reflexivity|left; reflexivity].
Defined.

Lemma create_embeddings_success_order_witness :
  create_embeddings healthy demo_manager "temp.pdf"
    (demo_state one_page_pdf uploaded)
  = (Return "Vector DB Successfully Created and Stored in Qdrant!",
     @after_calls demo_types
       [ EvPathExists "temp.pdf"; EvLoaderInit "temp.pdf";
         EvLoaderLoad "temp.pdf"; EvSplitDocuments 1000 250 ["page one"];
         EvQdrantFromDocuments ["page one"] "BAAI/bge-small-en"
           "http://localhost:6333" false "vector_db" ]
       ["page one"] (demo_state one_page_pdf uploaded)).
Proof.
  apply (create_embeddings_success_order healthy demo_manager "temp.pdf"
           (demo_state one_page_pdf uploaded)).
  exists [Byte.x25; Byte.x50; Byte.x44; Byte.x46], ["page one"],
    ["page one"], ["page one"].
  repeat split; try reflexivity; discriminate.
Defined.

Lemma create_embeddings_rewraps_store_errors_witness :
  create_embeddings store_down demo_manager "temp.pdf"
    (demo_state one_page_pdf uploaded)
  = (Raise (mk_exn ConnectionError "Failed to connect to Qdrant: timed out"),
     @after_calls demo_types
       (indexing_calls demo_manager "temp.pdf" ["page one"] ["page one"])
       [] (demo_state one_page_pdf uploaded)).
Proof.
  apply (create_embeddings_rewraps_store_errors store_down demo_manager
           "temp.pdf" (demo_state one_page_pdf uploaded)
           [Byte.x25; Byte.x50; Byte.x44; Byte.x46] ["page one"] ["page one"]
           timeout_error []);
    try reflexivity; discriminate.
Defined.

Lemma create_embeddings_failure_before_store_witness :
  ∃ evs : list Event,
    trace (create_embeddings healthy demo_manager "temp.pdf"
             (demo_state empty_pdf uploaded)).2 = evs
    ∧ Forall (λ ev, is_vector_db_call ev = false) evs
    ∧ db (create_embeddings healthy demo_manager "temp.pdf"
            (demo_state empty_pdf uploaded)).2 = [].
Proof.
  apply (create_embeddings_failure_before_store healthy demo_manager
           "temp.pdf" (demo_state empty_pdf uploaded) no_documents_error
           (create_embeddings healthy demo_manager "temp.pdf"
              (demo_state empty_pdf uploaded)).2);
    [reflexivity|right; reflexivity].
Defined.

Lemma vector_db_failure_is_reported_witness :
  (∃ s1, create_embeddings store_down (app_manager "BAAI/bge-small-en")
           "temp.pdf" (demo_state one_page_pdf uploaded)
         = (Raise (mk_exn ConnectionError
                     "Failed to connect to Qdrant: timed out"), s1))
  ∧ ∃ s', embeddings_column store_down true (demo_state one_page_pdf uploaded)
          = (Return (), s')
          ∧ display s' =
              [ WHeader "🧠 Embeddings"; WSpinner "Generating Embeddings...";
                WError "Failed to connect to Qdrant: timed out" ]
          ∧ session s' = uploaded.
Proof.
  apply (vector_db_failure_is_reported store_down
           (demo_state one_page_pdf uploaded) "temp.pdf"
           [Byte.x25; Byte.x50; Byte.x44; Byte.x46] "BAAI/bge-small-en"
           ["page one"] ["page one"] timeout_error []);
    try reflexivity; discriminate.
Defined.

Lemma indexing_errors_are_shown_witness :
  embeddings_column load_failing true (demo_state one_page_pdf uploaded)
  = (Return (),
     with_display [WError "An unexpected error occurred: model not loaded"]
       (embeddings_try_body load_failing "temp.pdf"
          (with_display [WHeader "🧠 Embeddings"]
             (demo_state one_page_pdf uploaded))).2).
Proof.
  apply (proj1 (proj2 (indexing_errors_are_shown load_failing))
           (demo_state one_page_pdf uploaded) "temp.pdf" runtime_error);
    reflexivity.
Defined.

Lemma chat_handler_appends_exchange_witness :
  "hi" ≠ ""
  ∧ ∃ s', chat_handler healthy (Some "hi")
            (demo_state one_page_pdf (chatting [])) = (Return (), s')
          ∧ transcript s' =
              [ message "user" "hi";
                message "assistant" "It is about cats." ].
Proof.
  split; [discriminate|].
  apply (chat_handler_appends_exchange healthy "hi"
           (demo_state one_page_pdf (chatting [])) [] ());
    [discriminate|reflexivity|reflexivity|intros e He; discriminate He].
Defined.

Lemma chat_handler_reports_exception_witness :
  ∃ s', chat_handler bot_failing (Some "hi")
          (demo_state one_page_pdf (chatting [])) = (Return (), s')
        ∧ transcript s' =
            [ message "user" "hi";
              message "assistant"
                "⚠️ An error occurred while processing your request: model not loaded" ].
Proof.
  apply (chat_handler_reports_exception bot_failing "hi"
           (demo_state one_page_pdf (chatting [])) [] () runtime_error);
    [discriminate|reflexivity|reflexivity|reflexivity].
Defined.

Lemma transcript_invariant_witness :
  transcript (script_run healthy first_visit new_state).2
  = [message "user" "hi"; message "assistant" "It is about cats."]
  ∧ Forall valid_message (transcript (script_run healthy first_visit new_state).2).
Proof.
  split; [reflexivity|].
  apply (proj1 (proj2 (@transcript_invariant demo_types))).
  apply reachable_run, reachable_new. reflexivity.
Defined.

(** ** Exceptions outside [Exception] *)

(** C1 as stated fails: the input is not empty, yet when [get_response]
    raises a [KeyboardInterrupt] the handler is left with the transcript
    extended by the user message only, not by the two messages. *)
Lemma chat_interrupt_breaks_exchange :
  "What is it about?" ≠ ""
  ∧ (chat_handler bot_interrupted (Some "What is it about?")
       (demo_state one_page_pdf (chatting []))).1
    = Raise keyboard_interrupt
  ∧ ∀ answer,
      transcript
        (chat_handler bot_interrupted (Some "What is it about?")
           (demo_state one_page_pdf (chatting []))).2
      ≠ ([] ++ [ message "user" "What is it about?";
                 message "assistant" answer ])%list.
Proof.
  split; [discriminate|]. split; [reflexivity|].
  intros answer Heq. apply (f_equal length) in Heq. discriminate Heq.
Qed.

(** C8 as stated fails: a [KeyboardInterrupt] raised by the vector-database
    client leaves [create_embeddings] as it is, with its own class. *)
Lemma store_interrupt_escapes :
  (from_documents_result store_interrupted ["page one"] "BAAI/bge-small-en"
     "http://localhost:6333" false "vector_db" []).1
  = Raise keyboard_interrupt
  ∧ (create_embeddings store_interrupted demo_manager "temp.pdf"
       (demo_state one_page_pdf uploaded)).1
    = Raise keyboard_interrupt
  ∧ exc_class keyboard_interrupt ≠ ConnectionError.
Proof. split; [reflexivity|]. split; [reflexivity|discriminate]. Qed.

(** C9 as stated fails: a [KeyboardInterrupt] raised by [get_response] leaves
    the handler, and the user message is followed by no assistant message. *)
Lemma chat_interrupt_leaves_user_message_alone :
  (chat_handler bot_interrupted (Some "hi")
     (demo_state one_page_pdf (chatting []))).1
  = Raise keyboard_interrupt
  ∧ transcript
      (chat_handler bot_interrupted (Some "hi")
         (demo_state one_page_pdf (chatting []))).2
    = [message "user" "hi"].
Proof. split; reflexivity. Qed.

(** C5 as stated fails: a [KeyboardInterrupt] that arises while the
    embeddings are created is not caught by the generic clause; it leaves the
    column and no error message is shown. *)
Lemma indexing_interrupt_escapes :
  (embeddings_column load_interrupted true
     (demo_state one_page_pdf uploaded)).1
  = Raise keyboard_interrupt
  ∧ display
      (embeddings_column load_interrupted true
         (demo_state one_page_pdf uploaded)).2
    = [WHeader "🧠 Embeddings"; WSpinner "Generating Embeddings..."].
Proof. split; reflexivity. Qed.

(** ** Further runs *)

Lemma embeddings_column_needs_upload_witness :
  embeddings_column healthy true (demo_state ∅ idle)
  = (Return (),
     with_display
       [WHeader "🧠 Embeddings"; WWarning "⚠️ Please upload a PDF first."]
       (demo_state ∅ idle)).
Proof.
  apply (embeddings_column_needs_upload healthy true (demo_state ∅ idle)).
  right. reflexivity.
Defined.

Lemma chatbot_manager_kept_or_created_witness :
  (embeddings_column healthy true (demo_state one_page_pdf uploaded)).1
  = Return ()
  ∧ display (embeddings_column healthy true
               (demo_state one_page_pdf uploaded)).2
    = [ WHeader "🧠 Embeddings"; WSpinner "Generating Embeddings...";
        WSuccess success_message ].
Proof.
  destruct (proj2 (chatbot_manager_kept_or_created healthy true
                     (demo_state one_page_pdf uploaded)))
    as (_ & Hret & Hdisplay & _); [reflexivity|discriminate|].
  split; [exact Hret|exact Hdisplay].
Defined.

Lemma show_messages_renders_transcript_witness :
  ∃ ws,
    show_messages [message "user" "hi"; message "assistant" "It is about cats."]
      new_state
    = (Return (), with_display ws new_state)
    ∧ Forall2 (λ msg w, ∃ role content,
                 msg !! "role" = Some role ∧ msg !! "content" = Some content
                 ∧ w = WChatMessage role content)
        [message "user" "hi"; message "assistant" "It is about cats."] ws.
Proof.
  apply (show_messages_renders_transcript
           [message "user" "hi"; message "assistant" "It is about cats."]
           new_state).
  repeat constructor;
    first [apply valid_message_user | apply valid_message_assistant].
Defined.

Lemma show_messages_invalid_message_witness :
  ∃ ws,
    show_messages ([message "user" "hi"] ++ ∅ :: [message "user" "again"])
      new_state
    = (Raise (mk_exn KeyError "'role'"), with_display ws new_state)
    ∧ Forall2 (λ shown w, ∃ role content,
                 shown !! "role" = Some role
                 ∧ shown !! "content" = Some content
                 ∧ w = WChatMessage role content) [message "user" "hi"] ws.
Proof.
  apply (proj2 (@show_messages_invalid_message demo_types)
           [message "user" "hi"] ∅ [message "user" "again"] new_state).
  - repeat constructor. apply valid_message_user.
  - reflexivity.
Defined.

Lemma reachable_transcript_dialogue_witness :
  dialogue (transcript (script_run healthy first_visit new_state).2).
Proof.
  apply reachable_transcript_dialogue.
  apply reachable_run, reachable_new. reflexivity.
Defined.

Lemma script_run_lets_no_error_out_witness :
  (script_run bot_interrupted (chatbot_page false (Some "hi"))
     (demo_state one_page_pdf (chatting []))).1
  = Raise keyboard_interrupt
  ∧ no_error_escapes
      (script_run bot_interrupted (chatbot_page false (Some "hi"))
         (demo_state one_page_pdf (chatting []))).1
  ∧ initialised
      (script_run bot_interrupted (chatbot_page false (Some "hi"))
         (demo_state one_page_pdf (chatting []))).2.
Proof.
  split; [reflexivity|].
  apply (script_run_lets_no_error_out bot_interrupted
           (chatbot_page false (Some "hi"))
           (demo_state one_page_pdf (chatting []))).
  constructor.
Defined.


Lemma other_pages_call_nothing_witness :
  ∃ s', script_run healthy home_page (demo_state one_page_pdf uploaded)
        = (Return (), s')
        ∧ trace s' = [] ∧ files s' = one_page_pdf ∧ db s' = []
        ∧ ss_temp_pdf_path (session s') = Some (Some "temp.pdf")
        ∧ ss_chatbot_manager (session s') = Some None
        ∧ ss_messages (session s') = Some []
        ∧ display s' =
            [ WPageConfig "Chat with PDF app" "wide" "expanded";
              WImage "chatbot.png";
              WMarkdown "### Your personal Document Assistant";
              WMarkdown "---"; WTitle "Chat with PDF App";
              WMarkdown home_text ]
        ∧ transcript s' = [] ∧ initialised s'.
Proof.
  apply (other_pages_call_nothing healthy home_page
           (demo_state one_page_pdf uploaded)).
  discriminate.
Defined.

Lemma embeddings_column_model_failure_witness :
  embeddings_column model_missing true (demo_state one_page_pdf uploaded)
  = (Return (),
     with_display
       [ WHeader "🧠 Embeddings";
         WError "An unexpected error occurred: No module named sentence_transformers" ]
       (after_calls [EvBgeInit "BAAI/bge-small-en" "cpu" encode_kwargs]
          [] (demo_state one_page_pdf uploaded))).
Proof.
  apply (embeddings_column_model_failure model_missing
           (demo_state one_page_pdf uploaded) "temp.pdf" import_error);
    reflexivity.
Defined.

Lemma embeddings_column_after_indexing_witness :
  ∃ o s',
    embeddings_column healthy true (demo_state one_page_pdf uploaded)
    = (o, s')
    ∧ db s' = ["page one"] ∧ files s' = one_page_pdf
    ∧ ss_messages (session s') = Some []
    ∧ o = Return ()
    ∧ ss_chatbot_manager (session s') = Some (Some ())
    ∧ display s' =
        [ WHeader "🧠 Embeddings"; WSpinner "Generating Embeddings...";
          WSuccess success_message ].
Proof.
  apply (embeddings_column_after_indexing healthy
           (demo_state one_page_pdf uploaded) "temp.pdf"
           [Byte.x25; Byte.x50; Byte.x44; Byte.x46] "BAAI/bge-small-en"
           ["page one"] ["page one"] ["page one"] None);
    try reflexivity; discriminate.
Defined.
